(** * Trip reservation tools and trip report ([src/ai_assistant/tools.py])

    Shallow embedding of the reservation constructors ([reserve_flight],
    [reserve_hotel], [reserve_bus], [reserve_restaurant]) and of
    [generate_trip_report].

    Modelling choices:
    - the trip log file is in one of two states ([LogFile]): opening it or
      [json.load] raises an exception, or [json.load] returns a value;
    - the values [json.load] returns are [pyval]: [str], [int], [bool],
      [None], [float], [list] and [dict]; a dict is the list of its
      (key, value) pairs as they stand in the JSON text, a lookup returns the
      last binding of a key and the keys come in the order of their first
      occurrence, as the dict [json.load] builds;
    - Python exceptions are the constructors of [exn]; a computation that
      raises returns [Exc e];
    - what the code takes from the Python runtime is left open in two
      classes, so that the results hold for every implementation of it:
      [PyBuiltins] ([float] conversion, addition and [repr], [repr] of a
      [str], the digit limit of [str] on an [int]) for the report, and
      [PyRuntime] ([date.fromisoformat], [datetime.fromisoformat],
      [random._randbelow]) for the reservation tools; the contract of
      [_randbelow] is a hypothesis used only where the cost range is proved;
    - [print] only writes to standard output and is left out. *)

From Stdlib Require Import QArith.
From stdpp Require Import base list strings pretty.

(* ------------------------------------------------------------------ *)
(** ** Python values, exceptions and the result monad *)

(** A Python [float]: a finite value [(-1)^neg * m * 2^e] (the sign is kept,
    so that [-0.0] and [0.0] print apart), an infinity, or NaN. *)
Inductive pyfloat :=
| FFin (neg : bool) (m : N) (e : Z)
| FInf (neg : bool)
| FNaN.

#[warnings="-register-all"]
Inductive pyval :=
| PStr (s : string)
| PInt (z : Z)
| PBool (b : bool)
| PNone
| PFloat (f : pyfloat)
| PList (l : list pyval)
| PDict (d : list (string * pyval)).

Inductive exn :=
| ValueError
| JSONDecodeError
| UnicodeDecodeError
| FileNotFoundError
| IsADirectoryError
| PermissionError
| RecursionError
| KeyError
| TypeError
| AttributeError
| OverflowError.

Inductive result (A : Type) :=
| Ret (a : A)
| Exc (e : exn).
Arguments Ret {A} a.
Arguments Exc {A} e.

Definition result_bind {A B} (c : result A) (k : A -> result B) : result B :=
  match c with
  | Ret a => k a
  | Exc e => Exc e
  end.

Notation "'let?' x ':=' c 'in' k" := (result_bind c (fun x => k))
  (at level 200, x name, c at level 100, k at level 200).

(* ------------------------------------------------------------------ *)
(** ** Dictionary keys *)

(** The value of a finite [float]. *)
Definition float_value (neg : bool) (m : N) (e : Z) : Q :=
  Qmult (inject_Z (if neg then Z.opp (Z.of_N m) else Z.of_N m)) (Qpower (inject_Z 2) e).

(** What a dict lookup compares of a key: strings by content, numbers by
    exact value ([1 == 1.0 == True], as [bool] is a subclass of [int] and
    [int] and [float] compare exactly), [None] with itself, infinities by
    sign; and NaN with NaN, since [json.load] returns one and the same float
    object for every [NaN] of a file and a lookup tries identity before
    [==]. Lists and dicts are unhashable: [None]. *)
Inductive dictkey :=
| KStr (s : string)
| KNone
| KNum (q : Q)
| KInf (neg : bool)
| KNaN.

Definition key_of (v : pyval) : option dictkey :=
  match v with
  | PStr s => Some (KStr s)
  | PInt z => Some (KNum (inject_Z z))
  | PBool b => Some (KNum (inject_Z (Z.b2z b)))
  | PNone => Some KNone
  | PFloat (FFin neg m e) => Some (KNum (float_value neg m e))
  | PFloat (FInf neg) => Some (KInf neg)
  | PFloat FNaN => Some KNaN
  | PList _ | PDict _ => None
  end.

Definition key_eqb (a b : dictkey) : bool :=
  match a, b with
  | KStr x, KStr y => String.eqb x y
  | KNone, KNone => true
  | KNum x, KNum y => Qeq_bool x y
  | KInf x, KInf y => Bool.eqb x y
  | KNaN, KNaN => true
  | _, _ => false
  end.

(** [hash(v)] succeeds *)
Definition hashable (v : pyval) : bool :=
  match key_of v with Some _ => true | None => false end.

(** Two keys a dict lookup finds equal. *)
Definition py_eqb (a b : pyval) : bool :=
  match key_of a, key_of b with
  | Some x, Some y => key_eqb x y
  | _, _ => false
  end.

(* ------------------------------------------------------------------ *)
(** ** JSON objects used as Python dicts *)

Definition entry := list (string * pyval).

(** [d.get(k)]: the last binding of [k], as [json.load] builds the dict. *)
Definition dict_lookup {A} (d : list (string * A)) (k : string) : option A :=
  fold_left (fun acc '(k', v) => if String.eqb k k' then Some v else acc) d None.

(** [d.get(k, default)] *)
Definition dict_get (d : entry) (k : string) (default : pyval) : pyval :=
  match dict_lookup d k with
  | Some v => v
  | None => default
  end.

(** [d[k]] *)
Definition dict_index (d : entry) (k : string) : result pyval :=
  match dict_lookup d k with
  | Some v => Ret v
  | None => Exc KeyError
  end.

(** The keys of the dict, in the order of their first occurrence. *)
Definition dict_keys {A} (d : list (string * A)) : list string :=
  fold_left (fun ks '(k, _) => if existsb (String.eqb k) ks then ks else ks ++ [k]) d [].

(** [d.items()] *)
Definition dict_items {A} (d : list (string * A)) : list (string * A) :=
  omap (fun k => (fun v => (k, v)) <$> dict_lookup d k) (dict_keys d).

(** [places_visited]: a dict from city keys to lists of activity lines,
    kept in insertion order (the order of [.items()]). *)
Definition places := list (pyval * list string).

Definition places_has (k : pyval) (d : places) : bool :=
  existsb (fun '(k', _) => py_eqb k' k) d.

(** [k in d]: [hash(k)] first, which raises [TypeError] on a list or dict. *)
Definition places_mem (k : pyval) (d : places) : result bool :=
  if hashable k then Ret (places_has k d) else Exc TypeError.

(** [d[k].append(v)] on a key that is present *)
Fixpoint places_append (k : pyval) (v : string) (d : places) : places :=
  match d with
  | [] => []
  | (k', vs) :: d' =>
      if py_eqb k' k then (k', vs ++ [v]) :: d'
      else (k', vs) :: places_append k v d'
  end.

(** ["\n".join(parts)] *)
Definition nl : string := String (Ascii.ascii_of_nat 10) EmptyString.

Fixpoint join (sep : string) (parts : list string) : string :=
  match parts with
  | [] => ""
  | [p] => p
  | p :: ps => p +:+ sep +:+ join sep ps
  end.

(* ------------------------------------------------------------------ *)
(** ** The trip log file *)

(** The state of [SETTINGS.log_file] as [open(log_file, 'r')] and
    [json.load] see it: either they raise [e] ([FileNotFoundError] when the
    file is absent, [UnicodeDecodeError] when its bytes are not valid in the
    locale's text encoding, as [b'[\xff]'] under UTF-8, [JSONDecodeError]
    when its text is not JSON, [ValueError] on an integer literal over the
    digit limit, [IsADirectoryError], [PermissionError], [RecursionError]
    on deep nesting), or [json.load] returns the value [v]. *)
Inductive LogFile :=
| Unreadable (e : exn)
| Decoded (v : pyval).

Abbreviation Missing := (Unreadable FileNotFoundError).

(** [with open(log_file, 'r') as file: json.load(file)] *)
Definition load_log (f : LogFile) : result pyval :=
  match f with
  | Unreadable e => Exc e
  | Decoded v => Ret v
  end.

(** A log of JSON objects as a JSON array. *)
Definition json_array (log : list entry) : pyval := PList (map PDict log).

(** [for entry in trip_data]: a list gives its elements, a dict its keys, a
    string its characters (one element per byte here: all of them are
    strings, and the first one already stops the loop); numbers, booleans
    and [None] are not iterable. *)
Definition py_iter (v : pyval) : result (list pyval) :=
  match v with
  | PList l => Ret l
  | PDict d => Ret (map PStr (dict_keys d))
  | PStr s => Ret (map (fun c => PStr (String c EmptyString)) (String.list_ascii_of_string s))
  | PInt _ | PBool _ | PNone | PFloat _ => Exc TypeError
  end.

(** [entry.get]: only a dict has it. *)
Definition as_dict (v : pyval) : result entry :=
  match v with
  | PDict d => Ret d
  | _ => Exc AttributeError
  end.

(* ------------------------------------------------------------------ *)
(** ** The runtime the report depends on *)

(** The conversion [float(n)] of an [int] ([None] when it raises
    [OverflowError]), [float] addition, [repr] of a [float] (which is also
    its [str]) and of a [str], and [sys.get_int_max_str_digits()], the most
    digits [str] prints of an [int] (Python 3.11 on): 0 means no limit, the
    only case before 3.11, and any other value is at least 640, as
    [sys.set_int_max_str_digits] enforces. *)
Class PyBuiltins := {
  float_of_int : Z -> option pyfloat;
  float_add : pyfloat -> pyfloat -> pyfloat;
  float_repr : pyfloat -> string;
  str_repr : string -> string;
  int_max_str_digits : Z;
  int_max_str_digits_range : int_max_str_digits = 0%Z \/ (640 <= int_max_str_digits)%Z }.

(* ------------------------------------------------------------------ *)
(** ** [generate_trip_report] *)

(** line 170 *)
Definition entry_city (entry : entry) : pyval :=
  dict_get entry "city" (dict_get entry "destination" (PStr "Unknown")).

(** line 171 *)
Definition entry_date (entry : entry) : pyval :=
  dict_get entry "date"
    (dict_get entry "checkin_date"
       (dict_get entry "reservation_time" (PStr "Unknown"))).

(** line 172 *)
Definition entry_cost (entry : entry) : pyval := dict_get entry "cost" (PInt 0).

Section Report.
Context `{B : PyBuiltins}.

(** [str(n)] of an [int] succeeds: at most [int_max_str_digits] digits. *)
Definition int_str_ok (n : Z) : bool :=
  (int_max_str_digits <=? 0)%Z ||
  (Z.of_nat (String.length (pretty (Z.abs n))) <=? int_max_str_digits)%Z.

(** The text of [repr(v)]. *)
Fixpoint py_repr_text (v : pyval) : string :=
  match v with
  | PStr s => str_repr s
  | PInt z => pretty z
  | PBool b => if b then "True" else "False"
  | PNone => "None"
  | PFloat f => float_repr f
  | PList l => "[" +:+ join ", " (map py_repr_text l) +:+ "]"
  | PDict d =>
      "{" +:+ join ", " (map (fun '(k, s) => str_repr k +:+ ": " +:+ s)
                            (dict_items (map (fun '(k, x) => (k, py_repr_text x)) d)))
      +:+ "}"
  end.

(** The text of [str(v)]: a string itself, [repr] for the rest. *)
Definition py_text (v : pyval) : string :=
  match v with
  | PStr s => s
  | _ => py_repr_text v
  end.

(** Every [int] that [str(v)] prints is within the digit limit. *)
Fixpoint rendered_ints_ok (v : pyval) : bool :=
  match v with
  | PInt z => int_str_ok z
  | PList l => forallb rendered_ints_ok l
  | PDict d => forallb snd (dict_items (map (fun '(k, x) => (k, rendered_ints_ok x)) d))
  | _ => true
  end.

(** [f"{v}"], that is [str(v)]: its text, or the [ValueError] of an [int]
    over the digit limit. *)
Definition py_format (v : pyval) : result string :=
  if rendered_ints_ok v then Ret (py_text v) else Exc ValueError.

Definition as_int (v : pyval) : option Z :=
  match v with
  | PInt z => Some z
  | PBool b => Some (Z.b2z b)
  | _ => None
  end.

(** The conversion of a number operand of a [float] operation. *)
Definition to_float (v : pyval) : result pyfloat :=
  match v with
  | PFloat f => Ret f
  | PInt _ | PBool _ =>
      match as_int v with
      | Some z => match float_of_int z with Some f => Ret f | None => Exc OverflowError end
      | None => Exc TypeError
      end
  | _ => Exc TypeError
  end.

(** [total_cost += cost]: [int] addition on [int] and [bool], [float]
    addition when one side is a [float], [TypeError] otherwise. *)
Definition py_iadd (total v : pyval) : result pyval :=
  match as_int total, as_int v with
  | Some a, Some b => Ret (PInt (a + b))
  | _, _ =>
      match total, v with
      | (PInt _ | PBool _ | PFloat _), (PInt _ | PBool _ | PFloat _) =>
          let? x := to_float total in
          let? y := to_float v in
          Ret (PFloat (float_add x y))
      | _, _ => Exc TypeError
      end
  end.

(** line 178 *)
Definition activity_of (rt date cost : pyval) : result string :=
  let? a := py_format rt in
  let? b := py_format date in
  let? c := py_format cost in
  Ret (a +:+ " on " +:+ b +:+ " - Cost: $" +:+ c).

(** The loop of lines 169-179, with [total_cost] and [places_visited]. *)
Fixpoint organize (trip_data : list pyval) (total_cost : pyval)
    (places_visited : places) : result (pyval * places) :=
  match trip_data with
  | [] => Ret (total_cost, places_visited)
  | v :: rest =>
      let? entry := as_dict v in
      let city := entry_city entry in
      let date := entry_date entry in
      let cost := entry_cost entry in
      let? total_cost := py_iadd total_cost cost in
      let? seen := places_mem city places_visited in
      let places_visited :=
        if seen then places_visited else places_visited ++ [(city, [])] in
      let? rt := dict_index entry "reservation_type" in
      let? activity := activity_of rt date cost in
      organize rest total_cost (places_append city activity places_visited)
  end.

(** Lines 182-185: the blocks of the cities. *)
Fixpoint city_lines (places_visited : places) : result (list string) :=
  match places_visited with
  | [] => Ret []
  | (city, activities) :: rest =>
      let? c := py_format city in
      let? more := city_lines rest in
      Ret (["City: " +:+ c] ++ activities ++ [nl] ++ more)
  end.

(** Lines 182-187: the report lines. *)
Definition report_lines (places_visited : places) (total_cost : pyval)
    : result (list string) :=
  let? body := city_lines places_visited in
  let? t := py_format total_cost in
  Ret (body ++ ["Total budget for the trip: $" +:+ t]).

Definition generate_trip_report (log_file : LogFile) : result string :=
  let body :=
    let? trip_data := load_log log_file in
    let? entries := py_iter trip_data in
    let? r := organize entries (PInt 0) [] in
    report_lines r.2 r.1 in
  match body with
  | Ret report => Ret (join nl report)
  | Exc FileNotFoundError => Ret "Error: trip log file not found."
  | Exc JSONDecodeError => Ret "Error: Could not decode the trip log file."
  | Exc e => Exc e
  end.

End Report.

(* ------------------------------------------------------------------ *)
(** ** The report as the spec describes it *)

(** The first field of [fields] present in the entry, else [default]. *)
Fixpoint first_present (e : entry) (fields : list string) (default : pyval) : pyval :=
  match fields with
  | [] => default
  | f :: fs =>
      match dict_lookup e f with
      | Some v => v
      | None => first_present e fs default
      end
  end.

Definition group_key (e : entry) : pyval :=
  first_present e ["city"; "destination"] (PStr "Unknown").

Definition display_date (e : entry) : pyval :=
  first_present e ["date"; "checkin_date"; "reservation_time"] (PStr "Unknown").

(** The [cost] field, 0 if absent. *)
Definition cost_or_zero (e : entry) : Z :=
  match dict_lookup e "cost" with
  | Some (PInt n) => n
  | _ => 0%Z
  end.

Definition total_of (log : list entry) : Z :=
  fold_right (fun e acc => (cost_or_zero e + acc)%Z) 0%Z log.

(** The grouping keys in the order of their first occurrence in the log. *)
Definition first_keys (log : list entry) : list pyval :=
  fold_left (fun ks e =>
               if existsb (fun k => py_eqb k (group_key e)) ks then ks
               else ks ++ [group_key e]) log [].

(** No two keys of the list are equal as dictionary keys. *)
Fixpoint keys_distinct (ks : list pyval) : Prop :=
  match ks with
  | [] => True
  | k :: ks' => Forall (fun k' => py_eqb k k' = false) ks' /\ keys_distinct ks'
  end.

(** A [cost] that [total_cost += cost] accepts on an [int] total and that
    keeps it an [int]: an [int], a [bool] or none. *)
Definition numeric_or_absent_cost (e : entry) : Prop :=
  match dict_lookup e "cost" with
  | None | Some (PInt _) | Some (PBool _) => True
  | Some _ => False
  end.

Definition santa_cruz_entry : entry :=
  [("reservation_type", PStr "flight"); ("destination", PStr "Santa Cruz");
   ("date", PStr "2024-12-01"); ("cost", PInt 500)].

Section SpecReport.
Context `{B : PyBuiltins}.

(** Every [int] held in the entry is within the digit limit, as in every
    value [json.load] returns (it raises [ValueError] on a longer literal). *)
Definition entry_ints_ok (e : entry) : bool :=
  forallb (fun '(_, v) => rendered_ints_ok v) e.

(** A log entry as the recorder writes it: a [reservation_type] tag, an
    integer [cost] (or no cost at all), a grouping key that can be hashed
    (not a list or a dict), and integers [json.load] can read. *)
Definition well_formed_entry (e : entry) : Prop :=
  (exists rt, dict_lookup e "reservation_type" = Some rt) /\
  (dict_lookup e "cost" = None \/ exists n, dict_lookup e "cost" = Some (PInt n)) /\
  hashable (group_key e) = true /\
  entry_ints_ok e = true.

(** An entry the loop of [generate_trip_report] gets through on an [int]
    total and leaves it an [int]: it has a [reservation_type], a [cost]
    that is an [int], a [bool] or none, a grouping key that can be hashed,
    and integers [json.load] can read. *)
Definition reportable_entry (e : entry) : Prop :=
  (exists rt, dict_lookup e "reservation_type" = Some rt) /\
  numeric_or_absent_cost e /\
  hashable (group_key e) = true /\
  entry_ints_ok e = true.

(** ["<reservation_type> on <date> - Cost: $<cost>"] *)
Definition spec_activity (e : entry) : string :=
  py_text (dict_get e "reservation_type" PNone) +:+ " on " +:+
  py_text (display_date e) +:+ " - Cost: $" +:+ pretty (cost_or_zero e).

(** The activity lines of the entries grouped under [k], in log order. *)
Definition group (log : list entry) (k : pyval) : list string :=
  map spec_activity (List.filter (fun e => py_eqb k (group_key e)) log).

Definition city_block (log : list entry) (k : pyval) : list string :=
  ["City: " +:+ py_text k] ++ group log k ++ [nl].

Definition spec_report (log : list entry) : string :=
  join nl (flat_map (city_block log) (first_keys log)
           ++ ["Total budget for the trip: $" +:+ pretty (total_of log)]).

(** The dict [places_visited] the spec expects after reading [log]. *)
Definition spec_places (log : list entry) : places :=
  map (fun k => (k, group log k)) (first_keys log).

End SpecReport.

(** The number of activity lines held in [places_visited]. *)
Fixpoint activity_count (pv : places) : nat :=
  match pv with
  | [] => 0
  | (_, acts) :: pv' => length acts + activity_count pv'
  end.

(* ------------------------------------------------------------------ *)
(** ** Reservation records ([ai_assistant.models]) *)

Record Date := mkDate { year : Z; month : Z; day : Z }.

Record DateTime := mkDateTime {
  dt_date : Date; hour : Z; minute : Z; second : Z; microsecond : Z }.

Inductive TripType := flight | bus.

Module Trip.
Record TripReservation := {
  trip_type : TripType;
  departure : string;
  destination : string;
  date : Date;
  cost : Z }.
End Trip.

Module Hotel.
Record HotelReservation := {
  checkin_date : Date;
  checkout_date : Date;
  hotel_name : string;
  city : string;
  cost : Z }.
End Hotel.

Module Restaurant.
Record RestaurantReservation := {
  reservation_time : DateTime;
  restaurant : string;
  city : string;
  dish : string;
  cost : Z }.
End Restaurant.

(** The argument of [save_reservation]. *)
Inductive Reservation :=
| RTrip (r : Trip.TripReservation)
| RHotel (r : Hotel.HotelReservation)
| RRestaurant (r : Restaurant.RestaurantReservation).

(** [str(n)] left-padded with zeros to [w] characters. *)
Definition zero_pad (w : nat) (n : Z) : string :=
  let s := pretty n in
  String.concat "" (repeat "0" (w - String.length s)) +:+ s.

(** [date.isoformat()] *)
Definition date_isoformat (d : Date) : string :=
  zero_pad 4 (year d) +:+ "-" +:+ zero_pad 2 (month d) +:+ "-" +:+ zero_pad 2 (day d).

(** [datetime.isoformat()] of a naive datetime *)
Definition datetime_isoformat (t : DateTime) : string :=
  date_isoformat (dt_date t) +:+ "T" +:+ zero_pad 2 (hour t) +:+ ":" +:+
  zero_pad 2 (minute t) +:+ ":" +:+ zero_pad 2 (second t) +:+
  (if Z.eqb (microsecond t) 0 then "" else "." +:+ zero_pad 6 (microsecond t)).

Definition trip_type_str (t : TripType) : string :=
  match t with flight => "flight" | bus => "bus" end.

(** Modelled from the spec: the log entry [save_reservation] (in
    [ai_assistant/utils.py], not among the sources) writes for a record,
    "serialized as a flat object tagged with its [reservation_type]", with
    dates and times as ISO-8601 strings (spec, sections 3, 4.2 and 6). *)
Definition serialize (r : Reservation) : pyval :=
  match r with
  | RTrip t =>
      PDict [("reservation_type", PStr (trip_type_str (Trip.trip_type t)));
             ("departure", PStr (Trip.departure t));
             ("destination", PStr (Trip.destination t));
             ("date", PStr (date_isoformat (Trip.date t)));
             ("cost", PInt (Trip.cost t))]
  | RHotel h =>
      PDict [("reservation_type", PStr "hotel");
             ("checkin_date", PStr (date_isoformat (Hotel.checkin_date h)));
             ("checkout_date", PStr (date_isoformat (Hotel.checkout_date h)));
             ("hotel_name", PStr (Hotel.hotel_name h));
             ("city", PStr (Hotel.city h));
             ("cost", PInt (Hotel.cost h))]
  | RRestaurant x =>
      PDict [("reservation_type", PStr "restaurant");
             ("reservation_time", PStr (datetime_isoformat (Restaurant.reservation_time x)));
             ("restaurant", PStr (Restaurant.restaurant x));
             ("city", PStr (Restaurant.city x));
             ("dish", PStr (Restaurant.dish x));
             ("cost", PInt (Restaurant.cost x))]
  end.

(** The entries of the log file: the elements of the JSON array it holds,
    none when it is absent. *)
Definition log_entries (f : LogFile) : list pyval :=
  match f with
  | Decoded (PList l) => l
  | _ => []
  end.

(** A log file the recorder can add to: absent, or holding a JSON array. *)
Definition readable_log (f : LogFile) : Prop :=
  f = Missing \/ exists l, f = Decoded (PList l).

(* ------------------------------------------------------------------ *)
(** ** The reservation tools *)

(** The parts of Python's standard library the tools call: the state of the
    [random] module with [random._randbelow], and [date.fromisoformat] and
    [datetime.fromisoformat], where [None] is the [ValueError] they raise on
    a string they do not accept. The results below hold for every
    instance. *)
Class PyRuntime := {
  RandState : Type;
  randbelow : Z -> RandState -> Z * RandState;
  date_fromisoformat : string -> option Date;
  datetime_fromisoformat : string -> option DateTime }.

(** The documented contract of [_randbelow(n)]: a value in [[0, n)]. *)
Definition randbelow_contract (rt : PyRuntime) : Prop :=
  forall n s, (0 < n)%Z -> (0 <= fst (randbelow n s) < n)%Z.

Section Reservations.
Context `{rt : PyRuntime}.

Record World := mkWorld { log_file : LogFile; rng : RandState }.

(** A Python statement sequence: state passing, and an exception keeps the
    state reached when it is raised. *)
Definition PyM (A : Type) : Type := World -> result A * World.

Definition py_ret {A} (a : A) : PyM A := fun w => (Ret a, w).

Definition py_bind {A B} (c : PyM A) (k : A -> PyM B) : PyM B := fun w =>
  match c w with
  | (Ret a, w') => k a w'
  | (Exc e, w') => (Exc e, w')
  end.

Notation "'let!' x ':=' c 'in' k" := (py_bind c (fun x => k))
  (at level 200, x name, c at level 100, k at level 200).

(** A call of [fromisoformat]: its value, or [ValueError]. *)
Definition from_iso {A} (parsed : option A) : PyM A := fun w =>
  match parsed with
  | Some a => (Ret a, w)
  | None => (Exc ValueError, w)
  end.

(** [random.randint(a, b)], that is [a + _randbelow(b + 1 - a)]. *)
Definition randint (a b : Z) : PyM Z := fun w =>
  let '(r, s) := randbelow (b + 1 - a) (rng w) in
  (Ret (a + r)%Z, mkWorld (log_file w) s).

(** Modelled from the spec: [save_reservation] of [ai_assistant/utils.py],
    not among the sources. "Open the configured log file, read any existing
    JSON array (empty array if the file does not exist), append the new
    record serialized as a flat object tagged with its [reservation_type],
    and rewrite the file in full" (spec 4.2). A file that cannot be read
    raises what reading it raises; one holding JSON that is not an array
    has no [append]: [AttributeError]. Either way nothing is written. *)
Definition save_reservation (r : Reservation) : PyM unit := fun w =>
  match log_file w with
  | Unreadable FileNotFoundError =>
      (Ret tt, mkWorld (Decoded (PList [serialize r])) (rng w))
  | Unreadable e => (Exc e, w)
  | Decoded (PList l) => (Ret tt, mkWorld (Decoded (PList (l ++ [serialize r]))) (rng w))
  | Decoded _ => (Exc AttributeError, w)
  end.

Definition reserve_flight (date_str departure destination : string)
    : PyM Trip.TripReservation :=
  let! d := from_iso (date_fromisoformat date_str) in
  let! c := randint 200 700 in
  let reservation := {| Trip.trip_type := flight; Trip.departure := departure;
                        Trip.destination := destination; Trip.date := d;
                        Trip.cost := c |} in
  let! _ := save_reservation (RTrip reservation) in
  py_ret reservation.

Definition reserve_hotel (checkin_date checkout_date hotel_name city : string)
    : PyM Hotel.HotelReservation :=
  let! ci := from_iso (date_fromisoformat checkin_date) in
  let! co := from_iso (date_fromisoformat checkout_date) in
  let! c := randint 50 300 in
  let reservation := {| Hotel.checkin_date := ci; Hotel.checkout_date := co;
                        Hotel.hotel_name := hotel_name; Hotel.city := city;
                        Hotel.cost := c |} in
  let! _ := save_reservation (RHotel reservation) in
  py_ret reservation.

Definition reserve_bus (date_str departure destination : string)
    : PyM Trip.TripReservation :=
  let! d := from_iso (date_fromisoformat date_str) in
  let! c := randint 20 100 in
  let reservation := {| Trip.trip_type := bus; Trip.departure := departure;
                        Trip.destination := destination; Trip.date := d;
                        Trip.cost := c |} in
  let! _ := save_reservation (RTrip reservation) in
  py_ret reservation.

Definition reserve_restaurant (reservation_time restaurant city dish : string)
    : PyM Restaurant.RestaurantReservation :=
  let! t := from_iso (datetime_fromisoformat reservation_time) in
  let! c := randint 10 50 in
  let reservation := {| Restaurant.reservation_time := t;
                        Restaurant.restaurant := restaurant;
                        Restaurant.city := city; Restaurant.dish := dish;
                        Restaurant.cost := c |} in
  let! _ := save_reservation (RRestaurant reservation) in
  py_ret reservation.

(** A tool call made by the agent, and a sequence of them. *)
Inductive Call :=
| CallFlight (date_str departure destination : string)
| CallHotel (checkin_date checkout_date hotel_name city : string)
| CallBus (date_str departure destination : string)
| CallRestaurant (reservation_time restaurant city dish : string).

Definition run_call (c : Call) : PyM Reservation :=
  match c with
  | CallFlight d a b => let! r := reserve_flight d a b in py_ret (RTrip r)
  | CallHotel ci co h x => let! r := reserve_hotel ci co h x in py_ret (RHotel r)
  | CallBus d a b => let! r := reserve_bus d a b in py_ret (RTrip r)
  | CallRestaurant t r x d =>
      let! v := reserve_restaurant t r x d in py_ret (RRestaurant v)
  end.

Fixpoint run_calls (cs : list Call) : PyM (list Reservation) :=
  match cs with
  | [] => py_ret []
  | c :: cs' =>
      let! r := run_call c in
      let! rs := run_calls cs' in
      py_ret (r :: rs)
  end.

End Reservations.

(* ------------------------------------------------------------------ *)
(** ** A concrete runtime, to run the code on examples *)

Definition digit_val (c : Ascii.ascii) : option Z :=
  let n := Ascii.nat_of_ascii c in
  if (48 <=? n)%nat && (n <=? 57)%nat then Some (Z.of_nat n - 48)%Z else None.

Fixpoint digits_val (acc : Z) (cs : list Ascii.ascii) : option Z :=
  match cs with
  | [] => Some acc
  | c :: cs' =>
      match digit_val c with
      | Some d => digits_val (10 * acc + d)%Z cs'
      | None => None
      end
  end.

Definition is_leap (y : Z) : bool :=
  (Z.eqb (y mod 4) 0 && negb (Z.eqb (y mod 100) 0)) || Z.eqb (y mod 400) 0.

Definition days_in_month (y m : Z) : Z :=
  if Z.eqb m 2 then (if is_leap y then 29 else 28)
  else if Z.eqb m 4 || Z.eqb m 6 || Z.eqb m 9 || Z.eqb m 11 then 30
  else 31.

Definition is_char (c : Ascii.ascii) (code : nat) : bool :=
  Nat.eqb (Ascii.nat_of_ascii c) code.

(** [date.fromisoformat] on its basic form [YYYY-MM-DD], with the range
    checks of the [date] constructor. *)
Definition basic_date_fromisoformat (s : string) : option Date :=
  match String.list_ascii_of_string s with
  | [y1; y2; y3; y4; s1; m1; m2; s2; d1; d2] =>
      if is_char s1 45 && is_char s2 45 then
        match digits_val 0 [y1; y2; y3; y4], digits_val 0 [m1; m2],
              digits_val 0 [d1; d2] with
        | Some y, Some m, Some d =>
            if (1 <=? y)%Z && (y <=? 9999)%Z && (1 <=? m)%Z && (m <=? 12)%Z &&
               (1 <=? d)%Z && (d <=? days_in_month y m)%Z
            then Some (mkDate y m d) else None
        | _, _, _ => None
        end
      else None
  | _ => None
  end.

(** [datetime.fromisoformat] on the forms [YYYY-MM-DD] and
    [YYYY-MM-DD?HH:MM] (any separator character). *)
Definition basic_datetime_fromisoformat (s : string) : option DateTime :=
  match basic_date_fromisoformat (String.substring 0 10 s) with
  | None => None
  | Some d =>
      match String.list_ascii_of_string (String.substring 10 (String.length s - 10) s) with
      | [] => Some (mkDateTime d 0 0 0 0)
      | [_; h1; h2; c1; n1; n2] =>
          match digits_val 0 [h1; h2], digits_val 0 [n1; n2] with
          | Some hh, Some mm =>
              if is_char c1 58 && (hh <=? 23)%Z && (mm <=? 59)%Z
              then Some (mkDateTime d hh mm 0 0) else None
          | _, _ => None
          end
      | _ => None
      end
  end.

(** A linear congruential generator standing for the [random] state. *)
Definition lcg_randbelow (n s : Z) : Z * Z :=
  (s mod n, (1103515245 * s + 12345) mod 2147483648)%Z.

Definition basic_runtime : PyRuntime := {|
  RandState := Z;
  randbelow := lcg_randbelow;
  date_fromisoformat := basic_date_fromisoformat;
  datetime_fromisoformat := basic_datetime_fromisoformat |}.

Definition signed_mantissa (neg : bool) (m : N) : Z :=
  if neg then Z.opp (Z.of_N m) else Z.of_N m.

(** Exact addition of two floats, standing for IEEE addition on sums that
    are exact, as on the examples. *)
Definition exact_float_add (x y : pyfloat) : pyfloat :=
  match x, y with
  | FFin n1 m1 e1, FFin n2 m2 e2 =>
      let k := Z.min e1 e2 in
      let s := (signed_mantissa n1 m1 * 2 ^ (e1 - k) +
                signed_mantissa n2 m2 * 2 ^ (e2 - k))%Z in
      FFin (s <? 0)%Z (Z.to_N (Z.abs s)) k
  | FNaN, _ | _, FNaN => FNaN
  | FInf a, FInf b => if Bool.eqb a b then FInf a else FNaN
  | FInf a, FFin _ _ _ => FInf a
  | FFin _ _ _, FInf b => FInf b
  end.

Fixpoint drop_zeros (cs : list Ascii.ascii) : list Ascii.ascii :=
  match cs with
  | c :: cs' => if is_char c 48 then drop_zeros cs' else cs
  | [] => []
  end.

(** The exact decimal expansion of a float, which is its [repr] when that
    has a short fractional part, as on the examples. *)
Definition exact_float_repr (x : pyfloat) : string :=
  match x with
  | FNaN => "nan"
  | FInf neg => if neg then "-inf" else "inf"
  | FFin neg m e =>
      let sign := if neg then "-" else "" in
      if (0 <=? e)%Z then sign +:+ pretty (Z.of_N m * 2 ^ e)%Z +:+ ".0"
      else
        let k := Z.to_nat (- e) in
        let ds := pretty (Z.of_N m * 5 ^ (- e))%Z in
        let ds := String.concat "" (repeat "0" (S k - String.length ds)) +:+ ds in
        let int_part := String.substring 0 (String.length ds - k) ds in
        let frac := String.substring (String.length ds - k) k ds in
        let frac := String.string_of_list_ascii
                      (rev (drop_zeros (rev (String.list_ascii_of_string frac)))) in
        sign +:+ int_part +:+ "." +:+ (if String.eqb frac "" then "0" else frac)
  end.

Definition basic_builtins : PyBuiltins := {|
  float_of_int := fun z => Some (FFin (z <? 0)%Z (Z.to_N (Z.abs z)) 0);
  float_add := exact_float_add;
  float_repr := exact_float_repr;
  str_repr := fun s => "'" +:+ s +:+ "'";
  int_max_str_digits := 4300;
  int_max_str_digits_range := or_intror (proj1 (Z.leb_le 640 4300) eq_refl) |}.

Definition example_world : @World basic_runtime := @mkWorld basic_runtime Missing 42%Z.

Definition santa_cruz_world : @World basic_runtime :=
  @mkWorld basic_runtime (Decoded (json_array [santa_cruz_entry])) 7%Z.

(** The example log: two cities, an entry without [cost]. *)
Definition three_entry_log : list entry :=
  [santa_cruz_entry;
   [("reservation_type", PStr "hotel"); ("city", PStr "Sucre");
    ("checkin_date", PStr "2024-12-02"); ("cost", PInt 80)];
   [("reservation_type", PStr "bus"); ("destination", PStr "Santa Cruz");
    ("date", PStr "2024-12-05")]].

(* ------------------------------------------------------------------ *)
(** ** Lemmas on keys and dicts *)

Lemma key_eqb_sym x y : key_eqb x y = key_eqb y x.
Proof.
  destruct x, y; simpl; try done.
  - apply String.eqb_sym.
  - apply Bool.eq_iff_eq_true. rewrite !Qeq_bool_iff. split; apply Qeq_sym.
  - by destruct neg, neg0.
Qed.

Lemma key_eqb_trans x y z : key_eqb x y = true -> key_eqb y z = true -> key_eqb x z = true.
Proof.
  destruct x, y, z; simpl; try done.
  - intros H1 H2. apply String.eqb_eq in H1, H2. subst. apply String.eqb_refl.
  - rewrite !Qeq_bool_iff. apply Qeq_trans.
  - by destruct neg, neg0, neg1.
Qed.

Lemma key_eqb_refl x : key_eqb x x = true.
Proof.
  destruct x; simpl; try done.
  - apply String.eqb_refl.
  - apply Qeq_bool_iff, Qeq_refl.
  - by destruct neg.
Qed.

Lemma py_eqb_refl a : hashable a = true -> py_eqb a a = true.
Proof.
  unfold hashable, py_eqb. destruct (key_of a); [|done]. intros _. apply key_eqb_refl.
Qed.

Lemma py_eqb_sym a b : py_eqb a b = py_eqb b a.
Proof.
  unfold py_eqb. destruct (key_of a), (key_of b); try done. apply key_eqb_sym.
Qed.

Lemma py_eqb_trans a b c : py_eqb a b = true -> py_eqb b c = true -> py_eqb a c = true.
Proof.
  unfold py_eqb. destruct (key_of a), (key_of b), (key_of c); try done.
  apply key_eqb_trans.
Qed.

Lemma py_eqb_hashable a b : py_eqb a b = true -> hashable a = true /\ hashable b = true.
Proof. unfold py_eqb, hashable. by destruct (key_of a), (key_of b). Qed.

Lemma dict_lookup_in_gen {A} (d : list (string * A)) k v acc :
  fold_left (fun acc '(k', v) => if String.eqb k k' then Some v else acc) d acc = Some v ->
  acc = Some v \/ In (k, v) d.
Proof.
  revert acc. induction d as [|[k' x] d IH]; intros acc; simpl; [by left|].
  intros H. destruct (IH _ H) as [Hacc|Hin]; [|by right; right].
  destruct (String.eqb k k') eqn:Hk; [|by left].
  apply String.eqb_eq in Hk. subst. right. left. congruence.
Qed.

Lemma dict_lookup_in {A} (d : list (string * A)) k v : dict_lookup d k = Some v -> In (k, v) d.
Proof. intros H. by destruct (dict_lookup_in_gen d k v None H). Qed.

Lemma dict_keys_nonempty_gen {A} (d : list (string * A)) ks :
  ks <> [] ->
  fold_left (fun ks '(k, _) => if existsb (String.eqb k) ks then ks else ks ++ [k]) d ks <> [].
Proof.
  revert ks. induction d as [|[k x] d IH]; intros ks Hks; simpl; [done|].
  apply IH. destruct (existsb _ _); [done|]. by destruct ks.
Qed.

Lemma dict_keys_nonempty {A} (d : list (string * A)) : d <> [] -> dict_keys d <> [].
Proof.
  destruct d as [|[k x] d]; [done|]. intros _. unfold dict_keys. simpl.
  by apply dict_keys_nonempty_gen.
Qed.

Lemma entry_city_first_present e :
  entry_city e = first_present e ["city"; "destination"] (PStr "Unknown").
Proof.
  unfold entry_city, dict_get; simpl.
  destruct (dict_lookup e "city"), (dict_lookup e "destination"); done.
Qed.

Lemma entry_city_group_key e : entry_city e = group_key e.
Proof. apply entry_city_first_present. Qed.

Lemma entry_date_first_present e :
  entry_date e = first_present e ["date"; "checkin_date"; "reservation_time"] (PStr "Unknown").
Proof.
  unfold entry_date, dict_get; simpl.
  destruct (dict_lookup e "date"), (dict_lookup e "checkin_date"),
    (dict_lookup e "reservation_time"); done.
Qed.

(* ------------------------------------------------------------------ *)
(** ** Lemmas on the spec's report *)

Lemma first_keys_snoc pre e :
  first_keys (pre ++ [e]) =
  if existsb (fun k => py_eqb k (group_key e)) (first_keys pre) then first_keys pre
  else first_keys pre ++ [group_key e].
Proof. unfold first_keys. by rewrite fold_left_app. Qed.

Lemma first_keys_in log k : In k (first_keys log) -> exists e, In e log /\ k = group_key e.
Proof.
  induction log as [|e log IH] using rev_ind; [done|].
  rewrite first_keys_snoc. intros Hk.
  destruct (existsb _ _).
  - destruct (IH Hk) as [e' [Hin ->]]. exists e'. split; [|done].
    apply in_or_app. by left.
  - apply in_app_or in Hk as [Hk|[<-|[]]].
    + destruct (IH Hk) as [e' [Hin ->]]. exists e'. split; [|done].
      apply in_or_app. by left.
    + exists e. split; [|done]. apply in_or_app. right. by left.
Qed.

Lemma total_of_app l1 l2 : total_of (l1 ++ l2) = (total_of l1 + total_of l2)%Z.
Proof. induction l1 as [|e l1 IH]; simpl; [done|]. rewrite IH. lia. Qed.

Lemma keys_distinct_snoc ks x :
  keys_distinct ks -> existsb (fun k => py_eqb k x) ks = false ->
  keys_distinct (ks ++ [x]).
Proof.
  induction ks as [|k ks IH]; simpl; [done|].
  intros [Hk Hks] Hx. apply orb_false_iff in Hx as [Hkx Hx].
  split; [|by apply IH].
  apply Forall_app. split; [done|]. by constructor.
Qed.

Lemma first_keys_distinct log : keys_distinct (first_keys log).
Proof.
  induction log as [|e log IH] using rev_ind; [done|].
  rewrite first_keys_snoc.
  destruct (existsb _ _) eqn:Hx; [done|]. by apply keys_distinct_snoc.
Qed.

Lemma first_keys_cover log e :
  In e log -> hashable (group_key e) = true ->
  existsb (fun k => py_eqb k (group_key e)) (first_keys log) = true.
Proof.
  intros Hin Hh. revert Hin.
  induction log as [|e' log IH] using rev_ind; [done|].
  rewrite first_keys_snoc. intros Hin. apply in_app_or in Hin.
  destruct (existsb (fun k => py_eqb k (group_key e')) (first_keys log)) eqn:Hx.
  - destruct Hin as [Hin|[<-|[]]]; [by apply IH|done].
  - rewrite existsb_app. apply orb_true_iff.
    destruct Hin as [Hin|[<-|[]]]; [left; by apply IH|].
    right. simpl. by rewrite py_eqb_refl.
Qed.

Lemma filter_all_false {A} (f : A -> bool) (l : list A) :
  (forall a, In a l -> f a = false) -> List.filter f l = [].
Proof.
  induction l as [|a l IH]; simpl; intros H; [done|].
  rewrite H by auto. apply IH. auto.
Qed.

Lemma places_has_map (g : pyval -> list string) ks x :
  places_has x (map (fun k => (k, g k)) ks) = existsb (fun k => py_eqb k x) ks.
Proof. induction ks as [|k ks IH]; simpl; [done|]. by rewrite IH. Qed.

Lemma places_append_map (g : pyval -> list string) ks x v :
  keys_distinct ks ->
  places_append x v (map (fun k => (k, g k)) ks) =
  map (fun k => (k, g k ++ if py_eqb k x then [v] else [])) ks.
Proof.
  induction ks as [|k ks IH]; simpl; [done|].
  intros [Hk Hks]. destruct (py_eqb k x) eqn:Hkx.
  - f_equal. apply map_ext_in. intros k' Hin.
    rewrite List.Forall_forall in Hk. specialize (Hk k' Hin).
    destruct (py_eqb k' x) eqn:Hk'x; [|by rewrite app_nil_r].
    exfalso. enough (py_eqb k k' = true) by congruence.
    apply (py_eqb_trans _ x); [done|]. by rewrite py_eqb_sym.
  - rewrite app_nil_r. f_equal. by apply IH.
Qed.

Lemma string_app_assoc (a b c : string) : (a +:+ b) +:+ c = a +:+ (b +:+ c).
Proof.
  induction a as [|x a IH]; [reflexivity|].
  change (String x ((a +:+ b) +:+ c) = String x (a +:+ b +:+ c)). by rewrite IH.
Qed.

Lemma join_snoc sep xs y :
  join sep (xs ++ [y]) = match xs with [] => y | _ => join sep xs +:+ sep +:+ y end.
Proof.
  induction xs as [|x xs IH]; [done|].
  destruct xs as [|x' xs]; [done|].
  change (join sep ((x :: x' :: xs) ++ [y])) with (x +:+ sep +:+ join sep ((x' :: xs) ++ [y])).
  rewrite IH. change (join sep (x :: x' :: xs)) with (x +:+ sep +:+ join sep (x' :: xs)).
  by rewrite !string_app_assoc.
Qed.

(** The number of activity lines. *)
Lemma activity_count_app d1 d2 :
  activity_count (d1 ++ d2) = (activity_count d1 + activity_count d2)%nat.
Proof. induction d1 as [|[k a] d1 IH]; simpl; [done|]. rewrite IH. lia. Qed.

Lemma activity_count_append k v d :
  places_has k d = true ->
  activity_count (places_append k v d) = S (activity_count d).
Proof.
  induction d as [|[k' a] d IH]; simpl; [discriminate|].
  destruct (py_eqb k' k); simpl.
  - rewrite length_app. simpl. lia.
  - intros H. rewrite IH by done. lia.
Qed.

Lemma places_append_keys k v d : map fst (places_append k v d) = map fst d.
Proof.
  induction d as [|[k' a] d IH]; simpl; [done|].
  destruct (py_eqb k' k); simpl; [done|]. by rewrite IH.
Qed.

Lemma places_has_keys k d : places_has k d = existsb (fun k' => py_eqb k' k) (map fst d).
Proof. induction d as [|[k' a] d IH]; simpl; [done|]. by rewrite IH. Qed.

Lemma places_has_snoc_new k d : hashable k = true -> places_has k (d ++ [(k, [])]) = true.
Proof.
  intros Hk. unfold places_has. rewrite existsb_app. simpl. rewrite py_eqb_refl by done.
  by rewrite orb_true_r.
Qed.

(* ------------------------------------------------------------------ *)
(** ** Lemmas on [generate_trip_report] *)

Section ReportProofs.
Context `{B : PyBuiltins}.

Lemma int_str_ok_short n :
  (Z.of_nat (String.length (pretty (Z.abs n))) <= 640)%Z -> int_str_ok n = true.
Proof.
  intros Hn. unfold int_str_ok.
  destruct int_max_str_digits_range as [H|H]; [rewrite H; reflexivity|].
  apply orb_true_iff. right. apply Z.leb_le. lia.
Qed.

Lemma int_str_ok_0 : int_str_ok 0 = true.
Proof. apply int_str_ok_short. apply Z.leb_le. reflexivity. Qed.

Lemma py_format_ok v : rendered_ints_ok v = true -> py_format v = Ret (py_text v).
Proof. unfold py_format. by intros ->. Qed.

Lemma lookup_ints_ok e k v :
  entry_ints_ok e = true -> dict_lookup e k = Some v -> rendered_ints_ok v = true.
Proof.
  intros He Hk. apply dict_lookup_in in Hk.
  unfold entry_ints_ok in He. rewrite forallb_forall in He.
  exact (He (k, v) Hk).
Qed.

Lemma first_present_ok e fs s :
  entry_ints_ok e = true -> rendered_ints_ok (first_present e fs (PStr s)) = true.
Proof.
  intros He. induction fs as [|f fs IH]; simpl; [done|].
  destruct (dict_lookup e f) eqn:Hf; [|done]. by apply (lookup_ints_ok e f).
Qed.

Lemma group_key_ok e : entry_ints_ok e = true -> rendered_ints_ok (group_key e) = true.
Proof. apply first_present_ok. Qed.

Lemma entry_date_ok e : entry_ints_ok e = true -> rendered_ints_ok (entry_date e) = true.
Proof. rewrite entry_date_first_present. apply first_present_ok. Qed.

(** The cost of an entry with an [int], [bool] or no [cost]. *)
Lemma entry_cost_numeric e :
  numeric_or_absent_cost e -> entry_ints_ok e = true ->
  exists n, as_int (entry_cost e) = Some n /\ rendered_ints_ok (entry_cost e) = true.
Proof.
  unfold numeric_or_absent_cost, entry_cost, dict_get. intros Hc He.
  destruct (dict_lookup e "cost") as [v|] eqn:Hv.
  - destruct v; try done; eexists; (split; [reflexivity|]).
    + by apply (lookup_ints_ok e "cost").
    + reflexivity.
  - eexists. split; [reflexivity|]. apply int_str_ok_0.
Qed.

Lemma activity_of_ok rt date cost :
  rendered_ints_ok rt = true -> rendered_ints_ok date = true ->
  rendered_ints_ok cost = true ->
  activity_of rt date cost =
    Ret (py_text rt +:+ " on " +:+ py_text date +:+ " - Cost: $" +:+ py_text cost).
Proof.
  intros H1 H2 H3. unfold activity_of. by rewrite !py_format_ok.
Qed.

Lemma spec_places_snoc pre e :
  hashable (group_key e) = true ->
  places_append (group_key e) (spec_activity e)
    (if places_has (group_key e) (spec_places pre) then spec_places pre
     else spec_places pre ++ [(group_key e, [])])
  = spec_places (pre ++ [e]).
Proof.
  intros Hh.
  assert (forall k, group (pre ++ [e]) k =
                    group pre k ++ (if py_eqb k (group_key e) then [spec_activity e] else []))
    as Hg.
  { intros k. unfold group. rewrite List.filter_app, map_app. simpl.
    by destruct (py_eqb k (group_key e)). }
  unfold spec_places. rewrite places_has_map, first_keys_snoc.
  destruct (existsb (fun k => py_eqb k (group_key e)) (first_keys pre)) eqn:Hx.
  - rewrite places_append_map by apply first_keys_distinct.
    apply map_ext. intros k. by rewrite Hg.
  - assert (group pre (group_key e) = []) as Hnil.
    { unfold group.
      enough (List.filter (fun e' => py_eqb (group_key e) (group_key e')) pre = []) as -> by done.
      apply filter_all_false. intros e' Hin.
      destruct (py_eqb (group_key e) (group_key e')) eqn:He; [|done].
      pose proof (py_eqb_hashable _ _ He) as [_ Hh'].
      pose proof (first_keys_cover pre e' Hin Hh') as Hc.
      apply existsb_exists in Hc as [k [Hk Hke]].
      assert (py_eqb k (group_key e) = true) as Hkx.
      { apply (py_eqb_trans _ (group_key e')); [done|]. by rewrite py_eqb_sym. }
      assert (existsb (fun k => py_eqb k (group_key e)) (first_keys pre) = true) as Hcontra.
      { apply existsb_exists. by exists k. }
      congruence. }
    assert (map (fun k => (k, group pre k)) (first_keys pre) ++ [(group_key e, [])]
            = map (fun k => (k, group pre k)) (first_keys pre ++ [group_key e])) as ->.
    { rewrite map_app. simpl. by rewrite Hnil. }
    rewrite places_append_map
      by (apply keys_distinct_snoc; [apply first_keys_distinct|done]).
    apply map_ext. intros k. by rewrite Hg.
Qed.

Lemma organize_spec rest pre :
  Forall well_formed_entry rest ->
  organize (map PDict rest) (PInt (total_of pre)) (spec_places pre)
  = Ret (PInt (total_of (pre ++ rest)), spec_places (pre ++ rest)).
Proof.
  revert pre. induction rest as [|e rest IH]; intros pre Hwf.
  - by rewrite app_nil_r.
  - inversion Hwf as [|? ? [[rt Hrt] [Hcost [Hh Hi]]] Hwf']; subst.
    assert (entry_cost e = PInt (cost_or_zero e)) as Hc.
    { unfold entry_cost, dict_get, cost_or_zero.
      destruct Hcost as [->|[n ->]]; done. }
    assert (int_str_ok (cost_or_zero e) = true) as Hci.
    { unfold cost_or_zero. destruct Hcost as [->|[n Hn]]; [apply int_str_ok_0|].
      rewrite Hn. exact (lookup_ints_ok e "cost" _ Hi Hn). }
    cbn [map organize as_dict result_bind].
    rewrite Hc, entry_city_group_key.
    change (py_iadd (PInt (total_of pre)) (PInt (cost_or_zero e)))
      with (@Ret pyval (PInt (total_of pre + cost_or_zero e))).
    cbn [result_bind]. unfold places_mem. rewrite Hh. cbn [result_bind].
    unfold dict_index. rewrite Hrt. cbn [result_bind].
    rewrite activity_of_ok.
    2: exact (lookup_ints_ok e _ _ Hi Hrt).
    2: by apply entry_date_ok.
    2: exact Hci.
    cbn [result_bind].
    assert (py_text rt +:+ " on " +:+ py_text (entry_date e) +:+ " - Cost: $" +:+
            py_text (PInt (cost_or_zero e)) = spec_activity e) as ->.
    { unfold spec_activity, dict_get. by rewrite Hrt, entry_date_first_present. }
    rewrite spec_places_snoc by done.
    assert ((total_of pre + cost_or_zero e)%Z = total_of (pre ++ [e])) as ->.
    { rewrite total_of_app. simpl. lia. }
    rewrite IH by done. by rewrite <- app_assoc.
Qed.

Lemma organize_spec_nil log :
  Forall well_formed_entry log ->
  organize (map PDict log) (PInt 0) [] = Ret (PInt (total_of log), spec_places log).
Proof. intros Hwf. exact (organize_spec log [] Hwf). Qed.

Lemma city_lines_map (g : pyval -> list string) ks :
  Forall (fun k => rendered_ints_ok k = true) ks ->
  city_lines (map (fun k => (k, g k)) ks) =
    Ret (flat_map (fun k => ["City: " +:+ py_text k] ++ g k ++ [nl]) ks).
Proof.
  induction ks as [|k ks IH]; intros Hks; [done|].
  inversion Hks; subst. cbn [map city_lines].
  rewrite py_format_ok by done. cbn [result_bind].
  rewrite IH by done. cbn [result_bind flat_map]. by rewrite <- !app_assoc.
Qed.

Lemma report_lines_spec log :
  Forall well_formed_entry log ->
  report_lines (spec_places log) (PInt (total_of log))
  = if int_str_ok (total_of log) then
      Ret (flat_map (city_block log) (first_keys log)
           ++ ["Total budget for the trip: $" +:+ pretty (total_of log)])
    else Exc ValueError.
Proof.
  intros Hwf. unfold report_lines, spec_places.
  rewrite city_lines_map.
  - cbn [result_bind]. unfold py_format. simpl rendered_ints_ok.
    by destruct (int_str_ok (total_of log)).
  - apply List.Forall_forall. intros k Hk.
    destruct (first_keys_in log k Hk) as [e [Hin ->]].
    rewrite List.Forall_forall in Hwf. destruct (Hwf e Hin) as [_ [_ [_ Hi]]].
    by apply group_key_ok.
Qed.

Lemma generate_trip_report_spec log :
  Forall well_formed_entry log ->
  generate_trip_report (Decoded (json_array log))
  = if int_str_ok (total_of log) then Ret (spec_report log) else Exc ValueError.
Proof.
  intros Hwf. unfold generate_trip_report, json_array.
  cbn [load_log py_iter result_bind].
  rewrite organize_spec_nil by done. cbn [result_bind fst snd].
  rewrite report_lines_spec by done.
  by destruct (int_str_ok (total_of log)).
Qed.

End ReportProofs.

Section MoreReportProofs.
Context `{B : PyBuiltins}.

Lemma organize_app pre rest t p :
  organize (pre ++ rest) t p =
  result_bind (organize pre t p) (fun r => organize rest r.1 r.2).
Proof.
  revert t p. induction pre as [|v pre IH]; intros t p; [done|].
  cbn [app organize].
  destruct (as_dict v) as [e|]; cbn [result_bind]; [|done].
  destruct (py_iadd t (entry_cost e)); cbn [result_bind]; [|done].
  destruct (places_mem (entry_city e) p); cbn [result_bind]; [|done].
  destruct (dict_index e "reservation_type"); cbn [result_bind]; [|done].
  destruct (activity_of _ _ _); cbn [result_bind]; [|done].
  apply IH.
Qed.

Lemma cost_as_int e : numeric_or_absent_cost e -> exists n, as_int (entry_cost e) = Some n.
Proof.
  unfold numeric_or_absent_cost, entry_cost, dict_get.
  destruct (dict_lookup e "cost") as [[]|]; try done; eauto.
Qed.

Lemma py_iadd_int z c n : as_int c = Some n -> py_iadd (PInt z) c = Ret (PInt (z + n)).
Proof. intros H. unfold py_iadd. cbn [as_int]. by rewrite H. Qed.

Lemma organize_succeeds pre z p :
  Forall reportable_entry pre ->
  exists z' p', organize (map PDict pre) (PInt z) p = Ret (PInt z', p').
Proof.
  revert z p. induction pre as [|e pre IH]; intros z p Hpre; [by eauto|].
  inversion Hpre as [|? ? [[rt Hrt] [Hc [Hh Hi]]] Hpre']; subst.
  destruct (entry_cost_numeric e Hc Hi) as [n [Hn Hci]].
  cbn [map organize as_dict result_bind].
  rewrite (py_iadd_int z _ n Hn). cbn [result_bind].
  rewrite entry_city_group_key. unfold places_mem. rewrite Hh. cbn [result_bind].
  unfold dict_index. rewrite Hrt. cbn [result_bind].
  rewrite activity_of_ok.
  - cbn [result_bind]. by apply IH.
  - exact (lookup_ints_ok e _ _ Hi Hrt).
  - by apply entry_date_ok.
  - exact Hci.
Qed.

(** The report raises [e] when the loop gets through [pre] and the entry
    [v] after it raises [e]. *)
Lemma report_prefix_exc pre v post e :
  Forall reportable_entry pre ->
  (forall z p, organize [v] (PInt z) p = Exc e) ->
  e <> FileNotFoundError -> e <> JSONDecodeError ->
  generate_trip_report (Decoded (PList (map PDict pre ++ v :: post))) = Exc e.
Proof.
  intros Hpre Hv H1 H2. unfold generate_trip_report. cbn [load_log py_iter result_bind].
  rewrite organize_app. destruct (organize_succeeds pre 0%Z [] Hpre) as [z [p ->]].
  cbn [result_bind fst snd].
  change (v :: post) with ([v] ++ post). rewrite organize_app, Hv. cbn [result_bind].
  destruct e; first [reflexivity | contradiction].
Qed.

Lemma report_lines_nil : report_lines [] (PInt 0) = Ret ["Total budget for the trip: $0"].
Proof.
  unfold report_lines, py_format. cbn [city_lines result_bind rendered_ints_ok].
  rewrite int_str_ok_0. reflexivity.
Qed.

Lemma generate_trip_report_no_entries v :
  py_iter v = Ret [] -> generate_trip_report (Decoded v) = Ret "Total budget for the trip: $0".
Proof.
  intros H. unfold generate_trip_report. cbn [load_log result_bind].
  rewrite H. cbn [result_bind organize fst snd]. rewrite report_lines_nil. reflexivity.
Qed.

Lemma generate_trip_report_first_not_dict v x l :
  py_iter v = Ret (x :: l) -> (forall d, x <> PDict d) ->
  generate_trip_report (Decoded v) = Exc AttributeError.
Proof.
  intros H Hx. unfold generate_trip_report. cbn [load_log result_bind].
  rewrite H. cbn [result_bind organize].
  destruct x; try reflexivity. by destruct (Hx d).
Qed.

(** The exceptions of the steps of the loop. *)
Lemma py_iadd_exc t v e : py_iadd t v = Exc e -> e = TypeError \/ e = OverflowError.
Proof.
  unfold py_iadd, to_float.
  destruct t, v; cbn [as_int result_bind];
    repeat match goal with
    | |- context [match float_of_int ?z with _ => _ end] => destruct (float_of_int z)
    end;
    cbn [result_bind]; intros H; inversion H; auto.
Qed.

Lemma py_format_exc v e : py_format v = Exc e -> e = ValueError.
Proof. unfold py_format. destruct (rendered_ints_ok v); intros H; by inversion H. Qed.

Lemma activity_of_exc a b c e : activity_of a b c = Exc e -> e = ValueError.
Proof.
  unfold activity_of.
  destruct (py_format a) eqn:Ha; cbn [result_bind]; [|intros H; inversion H; subst; by eapply py_format_exc].
  destruct (py_format b) eqn:Hb; cbn [result_bind]; [|intros H; inversion H; subst; by eapply py_format_exc].
  destruct (py_format c) eqn:Hc; cbn [result_bind]; [discriminate|intros H; inversion H; subst; by eapply py_format_exc].
Qed.

Lemma organize_exc l t p e :
  organize l t p = Exc e ->
  e = TypeError \/ e = AttributeError \/ e = KeyError \/ e = ValueError \/ e = OverflowError.
Proof.
  revert t p. induction l as [|v l IH]; intros t p; cbn [organize]; [discriminate|].
  destruct (as_dict v) as [x|e1] eqn:Hd; cbn [result_bind].
  2:{ intros H. inversion H; subst. destruct v; inversion Hd; subst; auto. }
  destruct (py_iadd t (entry_cost x)) as [t1|e1] eqn:Ha; cbn [result_bind].
  2:{ intros H. inversion H; subst. destruct (py_iadd_exc _ _ _ Ha) as [->| ->]; auto 6. }
  destruct (places_mem (entry_city x) p) as [seen|e1] eqn:Hm; cbn [result_bind].
  2:{ intros H. inversion H; subst. unfold places_mem in Hm.
      destruct (hashable _); inversion Hm; auto. }
  destruct (dict_index x "reservation_type") as [rt|e1] eqn:Hi; cbn [result_bind].
  2:{ intros H. inversion H; subst. unfold dict_index in Hi.
      destruct (dict_lookup _ _); inversion Hi; auto. }
  destruct (activity_of _ _ _) as [act|e1] eqn:Hact; cbn [result_bind].
  2:{ intros H. inversion H; subst. rewrite (activity_of_exc _ _ _ _ Hact). auto. }
  apply IH.
Qed.

Lemma city_lines_exc pv e : city_lines pv = Exc e -> e = ValueError.
Proof.
  induction pv as [|[k acts] pv IH]; cbn [city_lines]; [discriminate|].
  destruct (py_format k) eqn:Hk; cbn [result_bind].
  - destruct (city_lines pv); cbn [result_bind]; [discriminate|]. intros H. inversion H; subst. auto.
  - intros H. inversion H; subst. by eapply py_format_exc.
Qed.

Lemma report_lines_exc pv t e : report_lines pv t = Exc e -> e = ValueError.
Proof.
  unfold report_lines.
  destruct (city_lines pv) eqn:Hc; cbn [result_bind].
  - destruct (py_format t) eqn:Ht; cbn [result_bind]; [discriminate|].
    intros H. inversion H; subst. by eapply py_format_exc.
  - intros H. inversion H; subst. by eapply city_lines_exc.
Qed.

(** Counting and keys of [places_visited]. *)
Lemma organize_activity_count l t p t' p' :
  organize l t p = Ret (t', p') ->
  activity_count p' = (activity_count p + length l)%nat.
Proof.
  revert t p. induction l as [|v l IH]; intros t p; cbn [organize].
  - intros H. inversion H. simpl. lia.
  - destruct (as_dict v) as [x|e]; cbn [result_bind]; [|discriminate].
    destruct (py_iadd t (entry_cost x)) as [t1|e]; cbn [result_bind]; [|discriminate].
    destruct (places_mem (entry_city x) p) as [seen|e] eqn:Hm; cbn [result_bind]; [|discriminate].
    destruct (dict_index x "reservation_type") as [rt|e]; cbn [result_bind]; [|discriminate].
    destruct (activity_of _ _ _) as [act|e]; cbn [result_bind]; [|discriminate].
    intros H. rewrite (IH _ _ H). unfold places_mem in Hm.
    destruct (hashable (entry_city x)) eqn:Hh; [|discriminate]. inversion Hm; subst.
    destruct (places_has (entry_city x) p) eqn:Hp.
    + rewrite activity_count_append by done. simpl. lia.
    + rewrite activity_count_append by (by apply places_has_snoc_new).
      rewrite activity_count_app. simpl. lia.
Qed.

Lemma organize_keys_distinct l t p t' p' :
  keys_distinct (map fst p) ->
  organize l t p = Ret (t', p') -> keys_distinct (map fst p').
Proof.
  revert t p. induction l as [|v l IH]; intros t p Hd; cbn [organize].
  - intros H. by inversion H; subst.
  - destruct (as_dict v) as [x|e]; cbn [result_bind]; [|discriminate].
    destruct (py_iadd t (entry_cost x)) as [t1|e]; cbn [result_bind]; [|discriminate].
    destruct (places_mem (entry_city x) p) as [seen|e] eqn:Hm; cbn [result_bind]; [|discriminate].
    destruct (dict_index x "reservation_type") as [rt|e]; cbn [result_bind]; [|discriminate].
    destruct (activity_of _ _ _) as [act|e]; cbn [result_bind]; [|discriminate].
    intros H. refine (IH _ _ _ H). rewrite places_append_keys.
    unfold places_mem in Hm. destruct (hashable (entry_city x)); [|discriminate].
    inversion Hm; subst.
    destruct (places_has (entry_city x) p) eqn:Hp; [done|].
    rewrite map_app. simpl. apply keys_distinct_snoc; [done|].
    by rewrite <- places_has_keys.
Qed.

End MoreReportProofs.

(* ------------------------------------------------------------------ *)
(** ** Claims on [generate_trip_report] *)

Section ReportClaims.
Context `{B : PyBuiltins}.

(** C1: for every log that is a JSON array of well-formed entries, the
    report ends with the line giving the total budget, and that total is
    the sum of the [cost] fields, an absent [cost] counting 0; the one
    exception is a total too long for [str] under the interpreter's digit
    limit, which raises [ValueError]. *)
Theorem generate_trip_report_total (log : list entry) :
  Forall well_formed_entry log ->
  exists prefix, generate_trip_report (Decoded (json_array log))
    = if int_str_ok (total_of log)
      then Ret (prefix +:+ "Total budget for the trip: $" +:+ pretty (total_of log))
      else Exc ValueError.
Proof.
  intros Hwf. rewrite generate_trip_report_spec by done.
  unfold spec_report. rewrite join_snoc.
  destruct (flat_map (city_block log) (first_keys log)) as [|x xs].
  - by exists "".
  - exists (join nl (x :: xs) +:+ nl). by rewrite string_app_assoc.
Qed.

(** C2: the grouping key of an entry is its first present field among
    [city] and [destination], else ["Unknown"]; its display date is its
    first present field among [date], [checkin_date] and [reservation_time],
    else ["Unknown"]. *)
Theorem entry_key_and_date_fallback (e : entry) :
  entry_city e = first_present e ["city"; "destination"] (PStr "Unknown") /\
  entry_date e = first_present e ["date"; "checkin_date"; "reservation_time"] (PStr "Unknown").
Proof. split; [apply entry_city_first_present | apply entry_date_first_present]. Qed.

(** C3 (amended): an absent log file gives the text
    ["Error: trip log file not found."] and a text that is not JSON gives
    ["Error: Could not decode the trip log file."], both returned; every
    other error of reading the file escapes unchanged, such as the
    [UnicodeDecodeError] of bytes that are not valid in the text encoding. *)
Theorem generate_trip_report_file_errors :
  generate_trip_report Missing = Ret "Error: trip log file not found." /\
  generate_trip_report (Unreadable JSONDecodeError)
    = Ret "Error: Could not decode the trip log file." /\
  (forall e, e <> FileNotFoundError -> e <> JSONDecodeError ->
   generate_trip_report (Unreadable e) = Exc e).
Proof.
  split; [reflexivity|]. split; [reflexivity|].
  intros e H1 H2. destruct e; first [reflexivity | contradiction].
Qed.

(** C5: for every log that is a JSON array of well-formed entries the
    report is one block per city (a ["City: <city>"] line, the lines
    ["<reservation_type> on <date> - Cost: $<cost>"] of the city's entries
    in log order, a blank separator) followed by the total line (unless the
    total is over the digit limit of [str]); on the single Santa Cruz flight
    the report is exactly the expected text. *)
Theorem generate_trip_report_blocks (log : list entry) :
  Forall well_formed_entry log ->
  generate_trip_report (Decoded (json_array log))
    = (if int_str_ok (total_of log) then Ret (spec_report log) else Exc ValueError) /\
  generate_trip_report (Decoded (json_array [santa_cruz_entry])) =
    Ret ("City: Santa Cruz" +:+ nl +:+ "flight on 2024-12-01 - Cost: $500" +:+ nl
         +:+ nl +:+ nl +:+ "Total budget for the trip: $500").
Proof.
  intros Hwf. split; [by apply generate_trip_report_spec|].
  assert (int_str_ok 500 = true) as H500.
  { apply int_str_ok_short. apply Z.leb_le. reflexivity. }
  rewrite generate_trip_report_spec.
  - change (total_of [santa_cruz_entry]) with 500%Z. rewrite H500.
    vm_compute. reflexivity.
  - constructor; [|constructor].
    split; [eexists; reflexivity|]. split; [right; eexists; reflexivity|].
    split; [reflexivity|]. unfold entry_ints_ok, santa_cruz_entry. cbn [forallb rendered_ints_ok].
    rewrite H500. reflexivity.
Qed.


(** C10: for every log that is a JSON array of well-formed entries the keys
    of [places_visited] after the loop, hence the city blocks of the report,
    come in the order of the first occurrence of each key in the log. *)
Theorem generate_trip_report_city_order (log : list entry) :
  Forall well_formed_entry log ->
  (exists total pv, organize (map PDict log) (PInt 0) [] = Ret (total, pv) /\
                    map fst pv = first_keys log) /\
  generate_trip_report (Decoded (json_array log)) =
    if int_str_ok (total_of log) then
      Ret (join nl (flat_map (city_block log) (first_keys log)
                    ++ ["Total budget for the trip: $" +:+ pretty (total_of log)]))
    else Exc ValueError.
Proof.
  intros Hwf. split.
  - exists (PInt (total_of log)), (spec_places log). split.
    + by apply organize_spec_nil.
    + unfold spec_places. rewrite map_map. simpl. apply map_id.
  - by apply generate_trip_report_spec.
Qed.

(** X1: on an empty log array the report is the total line alone, with a
    total of 0. *)
Theorem generate_trip_report_empty_log :
  generate_trip_report (Decoded (PList [])) = Ret "Total budget for the trip: $0".
Proof. by apply generate_trip_report_no_entries. Qed.

(** X2: a log file holding JSON that is not an array: an empty object or an
    empty string gives the report of an empty log; a non-empty object (its
    keys) or string (its characters) gives the loop strings, whose [.get]
    raises [AttributeError]; a number, [true]/[false] or [null] is not
    iterable: [TypeError]. *)
Theorem generate_trip_report_non_array :
  generate_trip_report (Decoded (PDict [])) = Ret "Total budget for the trip: $0" /\
  generate_trip_report (Decoded (PStr "")) = Ret "Total budget for the trip: $0" /\
  (forall d, d <> [] -> generate_trip_report (Decoded (PDict d)) = Exc AttributeError) /\
  (forall s, s <> ""%string -> generate_trip_report (Decoded (PStr s)) = Exc AttributeError) /\
  (forall z, generate_trip_report (Decoded (PInt z)) = Exc TypeError) /\
  (forall b, generate_trip_report (Decoded (PBool b)) = Exc TypeError) /\
  generate_trip_report (Decoded PNone) = Exc TypeError /\
  (forall f, generate_trip_report (Decoded (PFloat f)) = Exc TypeError).
Proof.
  split; [by apply generate_trip_report_no_entries|].
  split; [by apply generate_trip_report_no_entries|].
  split.
  { intros d Hd. pose proof (dict_keys_nonempty d Hd) as Hk.
    destruct (dict_keys d) as [|k ks] eqn:Hks; [done|].
    apply (generate_trip_report_first_not_dict _ (PStr k) (map PStr ks)); [|done].
    simpl. by rewrite Hks. }
  split.
  { intros s Hs. destruct s as [|c s]; [done|].
    eapply generate_trip_report_first_not_dict; [reflexivity|done]. }
  repeat split; reflexivity.
Qed.

(** X3: [generate_trip_report] never lets [FileNotFoundError] or
    [JSONDecodeError] escape; from a log file [json.load] reads, the only
    exceptions that escape are [TypeError], [AttributeError], [KeyError],
    [ValueError] and [OverflowError]. *)
Theorem generate_trip_report_escaping_exceptions (f : LogFile) (e : exn) :
  generate_trip_report f = Exc e ->
  e <> FileNotFoundError /\ e <> JSONDecodeError /\
  (forall v, f = Decoded v ->
   e = TypeError \/ e = AttributeError \/ e = KeyError \/ e = ValueError \/ e = OverflowError).
Proof.
  unfold generate_trip_report.
  match goal with
  | |- (match ?b with Ret _ => _ | Exc _ => _ end = _ -> _) => destruct b as [r|e'] eqn:Hb
  end; [discriminate|].
  intros H.
  assert (e' = e /\ e <> FileNotFoundError /\ e <> JSONDecodeError) as [<- [H1 H2]]
    by (destruct e'; inversion H; subst; repeat split; discriminate).
  split; [done|]. split; [done|]. intros v ->. cbn [load_log result_bind] in Hb.
  destruct (py_iter v) as [l|e1] eqn:Hi; cbn [result_bind] in Hb.
  - destruct (organize l (PInt 0) []) as [[t pv]|e2] eqn:Ho; cbn [result_bind] in Hb.
    + rewrite (report_lines_exc _ _ _ Hb). auto.
    + inversion Hb; subst. by apply (organize_exc l (PInt 0) []).
  - inversion Hb; subst. destruct v; inversion Hi; auto.
Qed.

(** X4: the first entry with a [cost] that is a string or [null] makes the
    report raise [TypeError], whether or not it has a [reservation_type],
    when all the entries before it are reportable. *)
Theorem generate_trip_report_bad_cost_typeerror (pre : list entry) (e : entry)
    (post : list pyval) :
  Forall reportable_entry pre ->
  (exists s, dict_lookup e "cost" = Some (PStr s)) \/ dict_lookup e "cost" = Some PNone ->
  generate_trip_report (Decoded (PList (map PDict pre ++ PDict e :: post))) = Exc TypeError.
Proof.
  intros Hpre Hc. apply report_prefix_exc; [done| |discriminate|discriminate].
  intros z p. cbn [organize as_dict result_bind].
  unfold entry_cost, dict_get.
  by destruct Hc as [[s ->]| ->].
Qed.

(** X5: whenever the loop gets through the log, [places_visited] holds
    exactly one activity line per log entry: none is dropped or repeated. *)
Theorem organize_one_line_per_entry (trip_data : list pyval) (total : pyval) (pv : places) :
  organize trip_data (PInt 0) [] = Ret (total, pv) -> activity_count pv = length trip_data.
Proof. intros H. by rewrite (organize_activity_count _ _ _ _ _ H). Qed.

(** X6: whenever the loop gets through the log, no two keys of
    [places_visited] are equal under Python's [==], so no city gets two
    blocks in the report ([1], [1.0] and [true], equal in Python, share
    one). *)
Theorem organize_keys_unique (trip_data : list pyval) (total : pyval) (pv : places) :
  organize trip_data (PInt 0) [] = Ret (total, pv) -> keys_distinct (map fst pv).
Proof. intros H. exact (organize_keys_distinct trip_data (PInt 0) [] total pv I H). Qed.

(** X12: the first element of the log array that is not an object makes
    the report raise [AttributeError] ([.get] on a non-dict), when all the
    entries before it are reportable. *)
Theorem generate_trip_report_non_object_entry (pre : list entry) (v : pyval)
    (post : list pyval) :
  Forall reportable_entry pre ->
  (forall d, v <> PDict d) ->
  generate_trip_report (Decoded (PList (map PDict pre ++ v :: post))) = Exc AttributeError.
Proof.
  intros Hpre Hv. apply report_prefix_exc; [done| |discriminate|discriminate].
  intros z p. destruct v; try reflexivity. by destruct (Hv d).
Qed.

(** X13: an entry whose grouping key is an array or an object (unhashable)
    makes [city not in places_visited] raise [TypeError], before its
    [reservation_type] is read, when its [cost] is an [int], [bool] or
    absent and all the entries before it are reportable. *)
Theorem generate_trip_report_unhashable_city (pre : list entry) (e : entry)
    (post : list pyval) :
  Forall reportable_entry pre ->
  numeric_or_absent_cost e ->
  hashable (group_key e) = false ->
  generate_trip_report (Decoded (PList (map PDict pre ++ PDict e :: post))) = Exc TypeError.
Proof.
  intros Hpre Hc Hh. apply report_prefix_exc; [done| |discriminate|discriminate].
  intros z p. destruct (cost_as_int e Hc) as [n Hn].
  cbn [organize as_dict result_bind]. rewrite (py_iadd_int z _ n Hn). cbn [result_bind].
  rewrite entry_city_group_key. unfold places_mem. rewrite Hh. reflexivity.
Qed.

(** X14: a [float] cost is accepted: on a single entry with a [float]
    cost [c] the activity line shows [repr(c)] and the total becomes the
    [float] [0 + c], shown by its [repr]. *)
Theorem generate_trip_report_float_cost (rt city date : string) (c z : pyfloat) :
  float_of_int 0 = Some z ->
  generate_trip_report
    (Decoded (PList [PDict [("reservation_type", PStr rt); ("city", PStr city);
                            ("date", PStr date); ("cost", PFloat c)]]))
  = Ret ("City: " +:+ city +:+ nl +:+ rt +:+ " on " +:+ date +:+ " - Cost: $" +:+
         float_repr c +:+ nl +:+ nl +:+ nl +:+
         "Total budget for the trip: $" +:+ float_repr (float_add z c)).
Proof.
  intros Hz. unfold generate_trip_report. cbn [load_log py_iter result_bind organize as_dict].
  change (entry_cost _) with (PFloat c). change (entry_city _) with (PStr city).
  change (entry_date _) with (PStr date).
  change (dict_index _ "reservation_type") with (@Ret pyval (PStr rt)).
  replace (py_iadd (PInt 0) (PFloat c)) with (@Ret pyval (PFloat (float_add z c)))
    by (unfold py_iadd, to_float; cbn; rewrite Hz; reflexivity).
  cbn. rewrite String.eqb_refl. unfold report_lines, py_format. cbn.
  rewrite !string_app_assoc. reflexivity.
Qed.

End ReportClaims.

(** C3 (as stated): a log file that is not valid JSON text gives the
    decoding error text, and no exception escapes. It does not hold for the
    bytes [b'[\xff]'], not valid UTF-8: [open(log_file, 'r')] reads text, so
    [json.load] raises [UnicodeDecodeError], which neither handler catches,
    under every runtime. *)
Lemma undecodable_bytes_escape :
  ~ (exists (B : PyBuiltins) (s : string),
       @generate_trip_report B (Unreadable UnicodeDecodeError) = Ret s).
Proof. intros [B [s H]]. cbv in H. discriminate H. Qed.


(* ------------------------------------------------------------------ *)
(** ** Lemmas on the reservation tools *)

Section ReservationProofs.
Context `{rt : PyRuntime}.

Ltac unfold_tools :=
  unfold run_call, reserve_flight, reserve_hotel, reserve_bus,
    reserve_restaurant, py_bind, py_ret, from_iso, randint,
    save_reservation in *.

Lemma readable_entries f :
  readable_log f -> f = Missing \/ f = Decoded (PList (log_entries f)).
Proof. intros [->|[l ->]]; [by left|by right]. Qed.

Lemma run_call_log (c : Call) (w w' : World) (r : Reservation) :
  run_call c w = (Ret r, w') ->
  readable_log (log_file w) /\
  log_file w' = Decoded (PList (log_entries (log_file w) ++ [serialize r])).
Proof.
  destruct c; unfold_tools;
    repeat match goal with
    | |- context [match ?p with Some _ => _ | None => _ end] =>
        destruct p; [|discriminate]
    | |- context [randbelow ?n ?s] => destruct (randbelow n s)
    end;
    simpl; destruct (log_file w) as [[]|[]]; simpl; intros H; inversion H; subst;
    (split; [first [by left | by right; eexists] | done]).
Qed.

Lemma run_calls_log (cs : list Call) (w w' : World) (rs : list Reservation) :
  readable_log (log_file w) ->
  run_calls cs w = (Ret rs, w') ->
  log_entries (log_file w') = log_entries (log_file w) ++ map serialize rs /\
  length rs = length cs.
Proof.
  revert w rs. induction cs as [|c cs IH]; intros w rs Hw; simpl.
  - unfold py_ret. intros H. inversion H; subst. simpl. by rewrite app_nil_r.
  - unfold py_bind, py_ret.
    destruct (run_call c w) as [[r|e] w1] eqn:H1; [|discriminate].
    destruct (run_calls cs w1) as [[rs1|e] w2] eqn:H2; [|discriminate].
    intros H. inversion H; subst.
    destruct (run_call_log c w w1 r H1) as [_ Hw1].
    destruct (IH w1 rs1) as [Hl Hlen]; [rewrite Hw1; right; by eexists|done|].
    split; [|simpl; by rewrite Hlen].
    rewrite Hl, Hw1. simpl. by rewrite <- app_assoc.
Qed.

Lemma run_call_exc_log (c : Call) (w w' : World) (e : exn) :
  run_call c w = (Exc e, w') -> log_file w' = log_file w.
Proof.
  destruct c; unfold_tools;
    repeat match goal with
    | |- context [match ?p with Some _ => _ | None => _ end] => destruct p
    | |- context [randbelow ?n ?s] => destruct (randbelow n s)
    end;
    simpl; try destruct (log_file w) as [[]|[]] eqn:Hf; simpl; intros H; inversion H; subst;
    first [done | congruence].
Qed.

Lemma run_calls_exc_prefix (cs : list Call) (w w' : World) (e : exn) :
  run_calls cs w = (Exc e, w') ->
  exists n rs w'', (n < length cs)%nat /\
    run_calls (firstn n cs) w = (Ret rs, w'') /\ log_file w' = log_file w''.
Proof.
  revert w. induction cs as [|c cs IH]; intros w; simpl; unfold py_ret; [discriminate|].
  unfold py_bind.
  destruct (run_call c w) as [[r|e1] w1] eqn:H1.
  - destruct (run_calls cs w1) as [[rs1|e2] w2] eqn:H2; [discriminate|].
    intros H. inversion H; subst.
    destruct (IH w1 H2) as [n [rs [w'' [Hn [Hrun Hlog]]]]].
    exists (S n), (r :: rs), w''. split; [lia|]. split; [|done].
    simpl. unfold py_bind. rewrite H1, Hrun. reflexivity.
  - intros H. inversion H; subst.
    exists 0%nat, [], w. split; [lia|]. split; [reflexivity|].
    by apply (run_call_exc_log c w w' e).
Qed.

End ReservationProofs.

Lemma basic_runtime_contract : randbelow_contract basic_runtime.
Proof. intros n s Hn. simpl. apply Z.mod_pos_bound. exact Hn. Qed.

(* ------------------------------------------------------------------ *)
(** ** Claims on the reservation tools *)

(** C4: whenever a reservation tool returns a record, its cost lies in the
    range of its kind: flight [[200, 700]], bus [[20, 100]], hotel
    [[50, 300]], restaurant [[10, 50]]. *)
Theorem reservation_cost_range (rt : PyRuntime) :
  randbelow_contract rt ->
  (forall d a b w r w', reserve_flight d a b w = (Ret r, w') ->
     (200 <= Trip.cost r <= 700)%Z) /\
  (forall d a b w r w', reserve_bus d a b w = (Ret r, w') ->
     (20 <= Trip.cost r <= 100)%Z) /\
  (forall ci co h c w r w', reserve_hotel ci co h c w = (Ret r, w') ->
     (50 <= Hotel.cost r <= 300)%Z) /\
  (forall t x c d w r w', reserve_restaurant t x c d w = (Ret r, w') ->
     (10 <= Restaurant.cost r <= 50)%Z).
Proof.
  intros Hrb.
  repeat split; intros;
    match goal with H : _ = (Ret _, _) |- _ => revert H end;
    unfold reserve_flight, reserve_hotel, reserve_bus, reserve_restaurant,
      py_bind, py_ret, from_iso, randint, save_reservation;
    repeat match goal with
    | |- context [match ?p with Some _ => _ | None => _ end] =>
        destruct p; [|discriminate]
    end;
    match goal with
    | |- context [randbelow ?n (rng ?w)] =>
        pose proof (Hrb n (rng w)) as Hb; destruct (randbelow n (rng w)) as [draw s]
    end;
    simpl in Hb; specialize (Hb eq_refl);
    simpl; destruct (log_file _) as [[]|[]]; simpl; intros H; inversion H; subst; simpl; lia.
Qed.

(** C6: a string that [fromisoformat] rejects makes every reservation tool
    raise [ValueError] with the world unchanged: no log append. *)
Theorem reservation_invalid_date (rt : PyRuntime) (s : string) (w : World) :
  (date_fromisoformat s = None ->
   forall a b h c other,
     reserve_flight s a b w = (Exc ValueError, w) /\
     reserve_bus s a b w = (Exc ValueError, w) /\
     reserve_hotel s other h c w = (Exc ValueError, w) /\
     reserve_hotel other s h c w = (Exc ValueError, w)) /\
  (datetime_fromisoformat s = None ->
   forall x c d, reserve_restaurant s x c d w = (Exc ValueError, w)).
Proof.
  split.
  - intros Hs a b h c other.
    unfold reserve_flight, reserve_hotel, reserve_bus, py_bind, from_iso.
    rewrite Hs. repeat split.
    by destruct (date_fromisoformat other).
  - intros Hs x c d. unfold reserve_restaurant, py_bind, from_iso. by rewrite Hs.
Qed.

(** C7: N successful tool calls on an absent log file or an empty log array
    leave exactly N log entries, the serialized records in call order;
    calling the same tool twice with the same arguments leaves two
    entries. *)
Theorem reservations_logged_in_order (rt : PyRuntime) (cs : list Call)
    (w w' : World) (rs : list Reservation) :
  (log_file w = Missing \/ log_file w = Decoded (PList [])) ->
  run_calls cs w = (Ret rs, w') ->
  length (log_entries (log_file w')) = length cs /\
  log_entries (log_file w') = map serialize rs.
Proof.
  intros Hw H.
  assert (readable_log (log_file w)) as Hw'
    by (destruct Hw as [->| ->]; [by left|right; by eexists]).
  destruct (run_calls_log cs w w' rs Hw' H) as [Hl Hlen].
  assert (log_entries (log_file w) = []) as He by (destruct Hw as [->| ->]; done).
  rewrite He in Hl. simpl in Hl. rewrite Hl, length_map. done.
Qed.

(** C8: [reserve_hotel] does not compare the two dates: for any two strings
    [date.fromisoformat] accepts, in either order, it returns the record
    with those dates and appends it to the log (when the log file is absent
    or holds an array). *)
Theorem reserve_hotel_any_date_order (rt : PyRuntime)
    (ci co h c : string) (d1 d2 : Date) (w : World) :
  date_fromisoformat ci = Some d1 ->
  date_fromisoformat co = Some d2 ->
  readable_log (log_file w) ->
  exists r w', reserve_hotel ci co h c w = (Ret r, w') /\
    Hotel.checkin_date r = d1 /\ Hotel.checkout_date r = d2 /\
    Hotel.hotel_name r = h /\ Hotel.city r = c /\
    log_file w' = Decoded (PList (log_entries (log_file w) ++ [serialize (RHotel r)])).
Proof.
  intros H1 H2 Hw.
  unfold reserve_hotel, py_bind, py_ret, from_iso, randint, save_reservation.
  rewrite H1, H2. destruct (randbelow (300 + 1 - 50) (rng w)) as [x s].
  simpl. destruct Hw as [Hf|[l Hf]]; rewrite Hf;
    eexists _, _; (split; [reflexivity|]); repeat split.
Qed.

(** X7: a tool call that raises ([ValueError] from [fromisoformat], or the
    recorder's error) leaves the log file as it was. *)
Theorem failed_call_keeps_log (rt : PyRuntime) (c : Call) (w w' : World) (e : exn) :
  run_call c w = (Exc e, w') -> log_file w' = log_file w.
Proof. apply run_call_exc_log. Qed.

(** X8: when the date parses and the log file is absent or holds an array,
    [reserve_flight] and [reserve_bus] return a record with trip type
    [flight] resp. [bus], the given departure and destination and the
    parsed date, and append that record to the log. *)
Theorem reserve_trip_records (rt : PyRuntime) (d : string) (dd : Date)
    (a b : string) (w : World) :
  date_fromisoformat d = Some dd ->
  readable_log (log_file w) ->
  (exists r w', reserve_flight d a b w = (Ret r, w') /\
     Trip.trip_type r = flight /\ Trip.departure r = a /\
     Trip.destination r = b /\ Trip.date r = dd /\
     log_entries (log_file w') = log_entries (log_file w) ++ [serialize (RTrip r)]) /\
  (exists r w', reserve_bus d a b w = (Ret r, w') /\
     Trip.trip_type r = bus /\ Trip.departure r = a /\
     Trip.destination r = b /\ Trip.date r = dd /\
     log_entries (log_file w') = log_entries (log_file w) ++ [serialize (RTrip r)]).
Proof.
  intros Hd Hw.
  unfold reserve_flight, reserve_bus, py_bind, py_ret, from_iso, randint,
    save_reservation.
  rewrite Hd.
  split;
    match goal with
    | |- context [randbelow ?n (rng w)] => destruct (randbelow n (rng w)) as [draw s]
    end;
    simpl; destruct Hw as [Hf|[l Hf]]; rewrite Hf;
    eexists _, _; (split; [reflexivity|]); repeat split.
Qed.

(** X9: when the time parses and the log file is absent or holds an array,
    [reserve_restaurant] returns a record with the parsed time and the
    given restaurant, city and dish, and appends that record to the log. *)
Theorem reserve_restaurant_record (rt : PyRuntime) (t : string) (dt : DateTime)
    (x c d : string) (w : World) :
  datetime_fromisoformat t = Some dt ->
  readable_log (log_file w) ->
  exists r w', reserve_restaurant t x c d w = (Ret r, w') /\
    Restaurant.reservation_time r = dt /\ Restaurant.restaurant r = x /\
    Restaurant.city r = c /\ Restaurant.dish r = d /\
    log_entries (log_file w') = log_entries (log_file w) ++ [serialize (RRestaurant r)].
Proof.
  intros Ht Hw.
  unfold reserve_restaurant, py_bind, py_ret, from_iso, randint, save_reservation.
  rewrite Ht. destruct (randbelow (50 + 1 - 10) (rng w)) as [draw s].
  simpl. destruct Hw as [Hf|[l Hf]]; rewrite Hf;
    eexists _, _; (split; [reflexivity|]); repeat split.
Qed.

(** X10: a sequence of tool calls that stops on an exception leaves the log
    as the calls before the failing one left it: the failing call adds
    nothing. *)
Theorem failed_sequence_keeps_earlier_records (rt : PyRuntime) (cs : list Call)
    (w w' : World) (e : exn) :
  run_calls cs w = (Exc e, w') ->
  exists n rs w'', (n < length cs)%nat /\
    run_calls (firstn n cs) w = (Ret rs, w'') /\ log_file w' = log_file w''.
Proof. apply run_calls_exc_prefix. Qed.

(** X11: successful tool calls on a log file that is absent or holds an
    array keep the entries already in it and add the new records after
    them, in call order. *)
Theorem calls_append_after_existing (rt : PyRuntime) (cs : list Call)
    (w w' : World) (rs : list Reservation) :
  readable_log (log_file w) ->
  run_calls cs w = (Ret rs, w') ->
  log_entries (log_file w') = log_entries (log_file w) ++ map serialize rs.
Proof. intros Hw H. exact (proj1 (run_calls_log cs w w' rs Hw H)). Qed.

(* ------------------------------------------------------------------ *)
(** ** The claims on concrete inputs *)

#[local] Existing Instance basic_builtins.

Ltac well_formed_entry_tac :=
  split; [eexists; reflexivity|];
  split; [first [left; reflexivity | right; eexists; reflexivity]|];
  split; reflexivity.

Ltac reportable_entry_tac :=
  split; [eexists; reflexivity|]; split; [exact I|]; split; reflexivity.

Ltac forall_tac t := repeat (constructor; [t|]); constructor.

Lemma generate_trip_report_total_witness :
  Forall well_formed_entry three_entry_log /\ total_of three_entry_log = 580%Z /\
  exists prefix, generate_trip_report (Decoded (json_array three_entry_log))
    = Ret (prefix +:+ "Total budget for the trip: $" +:+ pretty (total_of three_entry_log)).
Proof.
  assert (Forall well_formed_entry three_entry_log) as Hwf
    by (forall_tac well_formed_entry_tac).
  split; [exact Hwf|]. split; [reflexivity|].
  destruct (generate_trip_report_total three_entry_log Hwf) as [prefix Hp].
  exists prefix. exact Hp.
Defined.

Lemma generate_trip_report_file_errors_witness :
  generate_trip_report (Unreadable UnicodeDecodeError) = Exc UnicodeDecodeError.
Proof.
  exact (proj2 (proj2 generate_trip_report_file_errors) UnicodeDecodeError
           ltac:(discriminate) ltac:(discriminate)).
Defined.

Lemma generate_trip_report_blocks_witness :
  Forall well_formed_entry three_entry_log /\
  generate_trip_report (Decoded (json_array three_entry_log))
    = Ret (spec_report three_entry_log) /\
  spec_report three_entry_log =
    "City: Santa Cruz" +:+ nl +:+ "flight on 2024-12-01 - Cost: $500" +:+ nl +:+
    "bus on 2024-12-05 - Cost: $0" +:+ nl +:+ nl +:+ nl +:+
    "City: Sucre" +:+ nl +:+ "hotel on 2024-12-02 - Cost: $80" +:+ nl +:+ nl +:+ nl +:+
    "Total budget for the trip: $580".
Proof.
  assert (Forall well_formed_entry three_entry_log) as Hwf
    by (forall_tac well_formed_entry_tac).
  split; [exact Hwf|]. split.
  - exact (proj1 (generate_trip_report_blocks three_entry_log Hwf)).
  - vm_compute. reflexivity.
Defined.


Lemma generate_trip_report_city_order_witness :
  Forall well_formed_entry three_entry_log /\
  first_keys three_entry_log = [PStr "Santa Cruz"; PStr "Sucre"] /\
  exists total pv, organize (map PDict three_entry_log) (PInt 0) [] = Ret (total, pv) /\
    map fst pv = first_keys three_entry_log.
Proof.
  assert (Forall well_formed_entry three_entry_log) as Hwf
    by (forall_tac well_formed_entry_tac).
  split; [exact Hwf|]. split; [reflexivity|].
  exact (proj1 (generate_trip_report_city_order three_entry_log Hwf)).
Defined.

Lemma reservation_cost_range_witness :
  randbelow_contract basic_runtime /\
  exists r w', @reserve_flight basic_runtime "2024-12-01" "La Paz" "Santa Cruz" example_world
                 = (Ret r, w') /\ (200 <= Trip.cost r <= 700)%Z.
Proof.
  split; [exact basic_runtime_contract|].
  destruct (@reserve_flight basic_runtime "2024-12-01" "La Paz" "Santa Cruz" example_world)
    as [[r|e] w'] eqn:E.
  - exists r, w'. split; [reflexivity|].
    exact (proj1 (reservation_cost_range basic_runtime basic_runtime_contract) _ _ _ _ _ _ E).
  - injection E as E1 _. discriminate E1.
Defined.

Lemma reservation_invalid_date_witness :
  basic_date_fromisoformat "2024-13-40" = None /\
  @reserve_flight basic_runtime "2024-13-40" "La Paz" "Santa Cruz" example_world
    = (Exc ValueError, example_world) /\
  @reserve_hotel basic_runtime "2024-12-01" "2024-13-40" "Los Tajibos" "Santa Cruz" example_world
    = (Exc ValueError, example_world).
Proof.
  assert (basic_date_fromisoformat "2024-13-40" = None) as Hs by reflexivity.
  split; [exact Hs|].
  destruct (proj1 (reservation_invalid_date basic_runtime "2024-13-40" example_world) Hs
              "La Paz" "Santa Cruz" "Los Tajibos" "Santa Cruz" "2024-12-01")
    as [Hf [_ [_ Hh]]].
  split; [exact Hf|exact Hh].
Defined.

Lemma reservations_logged_in_order_witness :
  let c := CallFlight "2024-12-01" "La Paz" "Santa Cruz" in
  exists rs w', @run_calls basic_runtime [c; c] example_world = (Ret rs, w') /\
    length (log_entries (log_file w')) = 2%nat.
Proof.
  intros c.
  destruct (@run_calls basic_runtime [c; c] example_world) as [[rs|e] w'] eqn:E.
  - exists rs, w'. split; [reflexivity|].
    exact (proj1 (reservations_logged_in_order basic_runtime [c; c] example_world w' rs
                    (or_introl eq_refl) E)).
  - injection E as E1 _. discriminate E1.
Defined.

Lemma reserve_hotel_any_date_order_witness :
  exists r w',
    @reserve_hotel basic_runtime "2024-12-05" "2024-12-01" "Los Tajibos" "Santa Cruz"
      example_world = (Ret r, w') /\
    Hotel.checkin_date r = mkDate 2024 12 5 /\ Hotel.checkout_date r = mkDate 2024 12 1 /\
    Hotel.hotel_name r = "Los Tajibos" /\ Hotel.city r = "Santa Cruz" /\
    log_file w' = Decoded (PList (log_entries (log_file example_world) ++ [serialize (RHotel r)])).
Proof.
  apply (reserve_hotel_any_date_order basic_runtime);
    [reflexivity|reflexivity|left; reflexivity].
Defined.

Lemma generate_trip_report_non_array_witness :
  generate_trip_report (Decoded (PDict [("city", PStr "Sucre")])) = Exc AttributeError /\
  generate_trip_report (Decoded (PStr "[]")) = Exc AttributeError /\
  generate_trip_report (Decoded (PInt 1)) = Exc TypeError.
Proof.
  destruct generate_trip_report_non_array as [_ [_ [Hd [Hs [Hz _]]]]].
  split; [apply Hd; discriminate|]. split; [apply Hs; discriminate|]. apply Hz.
Defined.

Lemma generate_trip_report_escaping_exceptions_witness :
  generate_trip_report (Decoded (PList [PInt 1])) = Exc AttributeError /\
  AttributeError <> FileNotFoundError /\ AttributeError <> JSONDecodeError /\
  (AttributeError = TypeError \/ AttributeError = AttributeError \/ AttributeError = KeyError \/
   AttributeError = ValueError \/ AttributeError = OverflowError).
Proof.
  assert (generate_trip_report (Decoded (PList [PInt 1])) = Exc AttributeError) as H
    by reflexivity.
  destruct (generate_trip_report_escaping_exceptions _ _ H) as [H1 [H2 H3]].
  split; [exact H|]. split; [exact H1|]. split; [exact H2|]. exact (H3 _ eq_refl).
Defined.

Lemma generate_trip_report_bad_cost_typeerror_witness :
  generate_trip_report
    (Decoded (PList (map PDict [santa_cruz_entry] ++
                     PDict [("reservation_type", PStr "bus"); ("cost", PStr "12")] :: [])))
  = Exc TypeError.
Proof.
  apply generate_trip_report_bad_cost_typeerror.
  - forall_tac reportable_entry_tac.
  - left. eexists. reflexivity.
Defined.

Lemma organize_one_line_per_entry_witness :
  exists total pv, organize (map PDict three_entry_log) (PInt 0) [] = Ret (total, pv) /\
    activity_count pv = 3%nat.
Proof.
  destruct (organize (map PDict three_entry_log) (PInt 0) []) as [[total pv]|e] eqn:E.
  - exists total, pv. split; [reflexivity|].
    exact (organize_one_line_per_entry _ total pv E).
  - discriminate E.
Defined.

Lemma organize_keys_unique_witness :
  let trip_data := [PDict [("reservation_type", PStr "flight"); ("city", PInt 1)];
                    PDict [("reservation_type", PStr "hotel"); ("city", PFloat (FFin false 1 0))];
                    PDict [("reservation_type", PStr "bus"); ("city", PBool true)]] in
  exists total pv, organize trip_data (PInt 0) [] = Ret (total, pv) /\
    map fst pv = [PInt 1] /\ keys_distinct (map fst pv).
Proof.
  intros trip_data.
  destruct (organize trip_data (PInt 0) []) as [[total pv]|e] eqn:E.
  - exists total, pv. split; [reflexivity|]. split.
    + injection E as _ Hpv. rewrite <- Hpv. reflexivity.
    + exact (organize_keys_unique trip_data total pv E).
  - discriminate E.
Defined.

Lemma failed_call_keeps_log_witness :
  exists e w',
    @run_call basic_runtime (CallHotel "2024-12-01" "2024-13-40" "Los Tajibos" "Santa Cruz")
      santa_cruz_world = (Exc e, w') /\
    log_file w' = log_file santa_cruz_world.
Proof.
  destruct (@run_call basic_runtime
              (CallHotel "2024-12-01" "2024-13-40" "Los Tajibos" "Santa Cruz")
              santa_cruz_world) as [[r|e] w'] eqn:E.
  - injection E as E1 _. discriminate E1.
  - exists e, w'. split; [reflexivity|].
    exact (failed_call_keeps_log basic_runtime _ _ _ _ E).
Defined.

Lemma reserve_trip_records_witness :
  (exists r w', @reserve_flight basic_runtime "2024-12-01" "La Paz" "Santa Cruz" example_world
                  = (Ret r, w') /\
     Trip.trip_type r = flight /\ Trip.departure r = "La Paz" /\
     Trip.destination r = "Santa Cruz" /\ Trip.date r = mkDate 2024 12 1 /\
     log_entries (log_file w') = log_entries (log_file example_world) ++ [serialize (RTrip r)]) /\
  (exists r w', @reserve_bus basic_runtime "2024-12-01" "La Paz" "Santa Cruz" example_world
                  = (Ret r, w') /\
     Trip.trip_type r = bus /\ Trip.departure r = "La Paz" /\
     Trip.destination r = "Santa Cruz" /\ Trip.date r = mkDate 2024 12 1 /\
     log_entries (log_file w') = log_entries (log_file example_world) ++ [serialize (RTrip r)]).
Proof.
  apply (reserve_trip_records basic_runtime); [reflexivity|left; reflexivity].
Defined.

Lemma reserve_restaurant_record_witness :
  exists r w',
    @reserve_restaurant basic_runtime "2024-12-01T19:30" "El Arriero" "Santa Cruz" "churrasco"
      example_world = (Ret r, w') /\
    Restaurant.reservation_time r = mkDateTime (mkDate 2024 12 1) 19 30 0 0 /\
    Restaurant.restaurant r = "El Arriero" /\ Restaurant.city r = "Santa Cruz" /\
    Restaurant.dish r = "churrasco" /\
    log_entries (log_file w') = log_entries (log_file example_world) ++ [serialize (RRestaurant r)].
Proof.
  apply (reserve_restaurant_record basic_runtime); [reflexivity|left; reflexivity].
Defined.

Lemma failed_sequence_keeps_earlier_records_witness :
  let cs := [CallFlight "2024-12-01" "La Paz" "Santa Cruz";
             CallBus "2024-13-40" "Santa Cruz" "Sucre"] in
  exists e w', @run_calls basic_runtime cs example_world = (Exc e, w') /\
    exists n rs w'', (n < length cs)%nat /\
      @run_calls basic_runtime (firstn n cs) example_world = (Ret rs, w'') /\
      log_file w' = log_file w''.
Proof.
  intros cs.
  destruct (@run_calls basic_runtime cs example_world) as [[rs|e] w'] eqn:E.
  - injection E as E1 _. discriminate E1.
  - exists e, w'. split; [reflexivity|].
    exact (failed_sequence_keeps_earlier_records basic_runtime cs example_world w' e E).
Defined.

Lemma calls_append_after_existing_witness :
  let cs := [CallBus "2024-12-02" "Santa Cruz" "Sucre"] in
  exists rs w', @run_calls basic_runtime cs santa_cruz_world = (Ret rs, w') /\
    log_entries (log_file w') = [PDict santa_cruz_entry] ++ map serialize rs.
Proof.
  intros cs.
  destruct (@run_calls basic_runtime cs santa_cruz_world) as [[rs|e] w'] eqn:E.
  - exists rs, w'. split; [reflexivity|].
    exact (calls_append_after_existing basic_runtime cs santa_cruz_world w' rs
             (or_intror (ex_intro _ _ eq_refl)) E).
  - injection E as E1 _. discriminate E1.
Defined.

Lemma generate_trip_report_non_object_entry_witness :
  generate_trip_report (Decoded (PList (map PDict [santa_cruz_entry] ++ PInt 1 :: [])))
  = Exc AttributeError.
Proof.
  apply generate_trip_report_non_object_entry.
  - forall_tac reportable_entry_tac.
  - discriminate.
Defined.

Lemma generate_trip_report_unhashable_city_witness :
  generate_trip_report
    (Decoded (PList (map PDict [santa_cruz_entry] ++
                     PDict [("reservation_type", PStr "bus"); ("city", PList [PStr "Sucre"])]
                     :: [])))
  = Exc TypeError.
Proof.
  apply generate_trip_report_unhashable_city.
  - forall_tac reportable_entry_tac.
  - exact I.
  - reflexivity.
Defined.

Lemma generate_trip_report_float_cost_witness :
  generate_trip_report
    (Decoded (PList [PDict [("reservation_type", PStr "flight"); ("city", PStr "Santa Cruz");
                            ("date", PStr "2024-12-01"); ("cost", PFloat (FFin false 3 (-1)))]]))
  = Ret ("City: Santa Cruz" +:+ nl +:+ "flight on 2024-12-01 - Cost: $1.5" +:+ nl +:+ nl +:+
         nl +:+ "Total budget for the trip: $1.5").
Proof.
  rewrite (@generate_trip_report_float_cost basic_builtins "flight" "Santa Cruz" "2024-12-01"
             (FFin false 3 (-1)) (FFin false 0 0) eq_refl).
  vm_compute. reflexivity.
Defined.
